(** * MicroX: the dashboard's event reducer and session lifecycle

    A shallow embedding of [App.tsx] and [types.ts]:
    - the data model of [types.ts] ([AnalysisFrame], [EmotionDataPoint],
      [ConnectionState]) and the aggregate [AppState];
    - [appReducer], with JavaScript's [Array.prototype.slice] written out;
    - the decoding of a ["report_analysis"] tool call ([onmessage]);
    - the session lifecycle ([connect], [disconnect], [startStreaming],
      [stopStreaming]) as state passing over the component's refs, with the
      calls made to the browser and to the remote session collected in a log.

    JavaScript numbers are IEEE 754 doubles; they are carried as
    [spec_float] values and never computed with, only tested for truthiness.
    What [new Date()] returns is an input: an argument of [appReducer] and
    of [decode_frame], a field of the component's [World]. *)

From Stdlib Require Import ZArith Ascii Floats.SpecFloat.
From stdpp Require Import base list strings gmap.

Local Open Scope Z_scope.

(** ** JavaScript values *)

Module JS.

Definition number : Type := spec_float.

(** The literal [0]. *)
Definition zero : number := S754_zero false.

Definition NaN : number := S754_nan.

(** The double denoting the positive integer [p] (as [p * 2^0]). *)
Definition of_pos (p : positive) : number := S754_finite false p 0.

(** ToBoolean, per type of value. *)
Class Truthy (A : Type) := truthy : A -> bool.

(** A string is falsy exactly when it is empty. *)
#[export] Instance truthy_string : Truthy string :=
  fun s => match s with EmptyString => false | String _ _ => true end.

(** A number is falsy exactly when it is [+0], [-0] or [NaN]. *)
#[export] Instance truthy_number : Truthy number :=
  fun n => match n with
           | S754_zero _ | S754_nan => false
           | S754_infinity _ | S754_finite _ _ _ => true
           end.

#[export] Instance truthy_bool : Truthy bool := fun b => b.

(** Every array, also the empty one, is an object and therefore truthy. *)
#[export] Instance truthy_array {A} : Truthy (list A) := fun _ => true.

#[export] Instance truthy_Z : Truthy Z := fun z => negb (z =? 0).

(** [undefined] and [null] are falsy; otherwise the value decides. *)
#[export] Instance truthy_option {A} `{Truthy A} : Truthy (option A) :=
  fun o => match o with Some a => truthy a | None => false end.

(** [x || d] where [x] may be [undefined] or [null]: the left operand when
    it is truthy, the right operand otherwise. *)
Definition or {A} `{Truthy A} (x : option A) (d : A) : A :=
  match x with
  | Some a => if truthy a then a else d
  | None => d
  end.

(** [x || null]. *)
Definition or_null {A} `{Truthy A} (x : option A) : option A :=
  match x with
  | Some a => if truthy a then Some a else None
  | None => None
  end.

(** The index normalisation of [Array.prototype.slice]: a negative index
    counts from the end, and the result is clamped to [0 .. len]. *)
Definition rel_index (len i : Z) : Z :=
  if i <? 0 then Z.max (len + i) 0 else Z.min i len.

(** [l.slice(start, end)]; [end_ = None] is the one-argument call. *)
Definition slice {A} (start : Z) (end_ : option Z) (l : list A) : list A :=
  let len := Z.of_nat (length l) in
  let k := rel_index len start in
  let final := match end_ with
               | None => len
               | Some e => rel_index len e
               end in
  take (Z.to_nat (Z.max (final - k) 0)) (drop (Z.to_nat k) l).

End JS.

Import JS.

(** ** types.ts *)

Record AnalysisFrame := mkAnalysisFrame {
  timestamp : string;
  dominant_emotion : string;
  confidence : number;
  micro_expression : option string;
  active_aus : list string;
  incongruence : bool;
  baseline_deviation : number;
  analysis_summary : string
}.

Inductive ConnectionState := DISCONNECTED | CONNECTING | CONNECTED | ERROR.

Record EmotionDataPoint := mkEmotionDataPoint {
  time : string;
  intensity : number;
  emotion : string
}.

(** ** The reducer *)

Record AppState := mkAppState {
  connectionState : ConnectionState;
  frames : list AnalysisFrame;
  currentFrame : option AnalysisFrame;
  timelineData : list EmotionDataPoint;
  isMicOn : bool
}.

Inductive Action :=
| SET_CONNECTION (payload : ConnectionState)
| ADD_FRAME (payload : AnalysisFrame)
| TOGGLE_MIC
| RESET.

Definition initialState : AppState :=
  {| connectionState := DISCONNECTED;
     frames := [];
     currentFrame := None;
     timelineData := [];
     isMicOn := true |}.

(** [appReducer now state action]; [now] is what
    [new Date().toLocaleTimeString()] returns when the reducer runs. The
    [default] branch of the source's [switch] is not reachable at type
    [Action]. *)
Definition appReducer (now : string) (state : AppState) (action : Action)
  : AppState :=
  match action with
  | SET_CONNECTION payload =>
      {| connectionState := payload;
         frames := frames state;
         currentFrame := currentFrame state;
         timelineData := timelineData state;
         isMicOn := isMicOn state |}
  | ADD_FRAME payload =>
      let newTimeline :=
        slice (-60) None
          (timelineData state ++
             [ {| time := now;
                  intensity := baseline_deviation payload;
                  emotion := dominant_emotion payload |} ]) in
      {| connectionState := connectionState state;
         frames := slice 0 (Some 50) (payload :: frames state);
         currentFrame := Some payload;
         timelineData := newTimeline;
         isMicOn := isMicOn state |}
  | TOGGLE_MIC =>
      {| connectionState := connectionState state;
         frames := frames state;
         currentFrame := currentFrame state;
         timelineData := timelineData state;
         isMicOn := negb (isMicOn state) |}
  | RESET => initialState
  end.

(** A dispatched action together with the clock reading at which the reducer
    handles it. *)
Definition Dispatched : Type := string * Action.

(** The state after a sequence of dispatches, oldest first. *)
Definition reduce_all (evs : list Dispatched) (s : AppState) : AppState :=
  fold_left (fun st ev => appReducer ev.1 st ev.2) evs s.

(** A sequence of add-frame events: each frame with the clock reading at
    which it is reduced. *)
Definition add_frames (fs : list (string * AnalysisFrame)) : list Dispatched :=
  (fun p => (p.1, ADD_FRAME p.2)) <$> fs.

(** The timeline point the reducer derives from a frame. *)
Definition point_of (p : string * AnalysisFrame) : EmotionDataPoint :=
  {| time := p.1;
     intensity := baseline_deviation p.2;
     emotion := dominant_emotion p.2 |}.

(** The last [n] elements of a list, in order. *)
Definition last_n {A} (n : nat) (l : list A) : list A :=
  drop (length l - n)%nat l.

(** ** Decoding a tool call *)

(** [fc.args] of a ["report_analysis"] call, typed as the schema of
    [analysisTool] declares its properties. [None] is a property that is
    absent ([undefined]) or [null]. *)
Record Args := mkArgs {
  arg_dominant_emotion : option string;
  arg_confidence : option number;
  arg_micro_expression : option string;
  arg_active_aus : option (list string);
  arg_incongruence : option bool;
  arg_baseline_deviation : option number;
  arg_analysis_summary : option string
}.

(** The [frame] constant built in [onmessage]; [now_iso] is what
    [new Date().toISOString()] returns there. *)
Definition decode_frame (now_iso : string) (data : Args) : AnalysisFrame :=
  {| timestamp := now_iso;
     dominant_emotion := JS.or (arg_dominant_emotion data) "Neutral";
     confidence := JS.or (arg_confidence data) zero;
     micro_expression := JS.or_null (arg_micro_expression data);
     active_aus := JS.or (arg_active_aus data) [];
     incongruence := JS.or (arg_incongruence data) false;
     baseline_deviation := JS.or (arg_baseline_deviation data) zero;
     analysis_summary := JS.or (arg_analysis_summary data) "Processing..." |}.

Record FunctionCall := mkFunctionCall {
  fc_id : string;
  fc_name : string;
  fc_args : Args
}.

Record LiveServerMessage := mkLiveServerMessage {
  toolCall : option (list FunctionCall)
}.

(** ** The component: refs, browser and remote session *)

(** A live session object and a media track, by identity. *)
Definition Session : Type := nat.
Definition Track : Type := nat.

Inductive AudioNode := ProcessorNode | SourceNode.

(** What one run of the interval callback reads from the page:
    [canvas.getContext('2d')] being non-null, [video.readyState], and
    [canvas.toDataURL('image/jpeg', 0.6).split(',')[1]] of the frame then
    on screen. *)
Record VideoProbe := mkVideoProbe {
  has_ctx : bool;
  readyState : Z;
  jpeg_base64 : string
}.

(** Where an [async] function stands when it gives control back. *)
Inductive Await :=
| Returned
| AwaitUserMedia
| AwaitPlay
| AwaitSession
| AwaitResume
| AwaitSend.

Section Component.

(** The type of what [createPcmBlob] of [utils/audioUtils] returns. That
    module is not among the sources; the codec is a parameter throughout. *)
Context {Blob : Type}.

(** The [media] of a realtime-input message: what [createPcmBlob] returns,
    or an inline [{ mimeType, data }]. *)
Inductive Media :=
| PcmMedia (blob : Blob)
| InlineMedia (mimeType data : string).

(** Calls that leave the component, in the order they are made. *)
Inductive Call :=
| ConsoleError (msg : string)
| ConsoleLog (msg : string)
| Dispatch (action : Action)
| GetUserMedia
| VideoPlay (stream : list Track)
| LiveConnect
| Send (s : Session) (text : string)
| SendRealtimeInput (s : Session) (media : Media)
| SendToolResponse (s : Session) (id name result : string)
| NewAudioContext (sampleRate : Z)
| AudioContextResume
| AudioContextClose
| NodeConnect (n : AudioNode)
| NodeDisconnect (n : AudioNode)
| DrawImage (width height : Z)
| SetInterval (id ms : Z)
| ClearInterval (id : Z)
| TrackStop (t : Track).

(** A [ScriptProcessorNode] with the handler assigned to it. *)
Record ScriptProcessorNode := mkScriptProcessorNode {
  onaudioprocess : list number -> list Call
}.

(** The [useRef] cells of [App]. [videoRef] and [canvasRef] only record
    whether the element is mounted. *)
Record Refs := mkRefs {
  videoRef : bool;
  canvasRef : bool;
  streamRef : option (list Track);
  audioContextRef : option unit;
  processorRef : option ScriptProcessorNode;
  sourceRef : option unit;
  frameIntervalRef : option Z;
  sessionRef : option Session;
  processingRef : bool
}.

(** The component instance and what it reads from its host:
    [process.env.API_KEY], the wall clock in its two renderings, whether a
    new [AudioContext] starts suspended, the state held by [useReducer],
    the refs, and the browser's table of running interval timers. *)
Record World := mkWorld {
  API_KEY : option string;
  now_locale : string;
  now_iso : string;
  context_suspended : bool;
  reducerState : AppState;
  refs : Refs;
  timers : gset Z;
  next_timer : Z
}.

Definition set_reducerState (s : AppState) (w : World) : World :=
  {| API_KEY := API_KEY w; now_locale := now_locale w; now_iso := now_iso w;
     context_suspended := context_suspended w;
     reducerState := s; refs := refs w;
     timers := timers w; next_timer := next_timer w |}.

Definition set_refs (r : Refs) (w : World) : World :=
  {| API_KEY := API_KEY w; now_locale := now_locale w; now_iso := now_iso w;
     context_suspended := context_suspended w;
     reducerState := reducerState w; refs := r;
     timers := timers w; next_timer := next_timer w |}.

Definition set_timers (t : gset Z) (n : Z) (w : World) : World :=
  {| API_KEY := API_KEY w; now_locale := now_locale w; now_iso := now_iso w;
     context_suspended := context_suspended w;
     reducerState := reducerState w; refs := refs w;
     timers := t; next_timer := n |}.

Definition with_streamRef (v : option (list Track)) (r : Refs) : Refs :=
  {| videoRef := videoRef r; canvasRef := canvasRef r; streamRef := v;
     audioContextRef := audioContextRef r; processorRef := processorRef r;
     sourceRef := sourceRef r; frameIntervalRef := frameIntervalRef r;
     sessionRef := sessionRef r; processingRef := processingRef r |}.

Definition with_audioContextRef (v : option unit) (r : Refs) : Refs :=
  {| videoRef := videoRef r; canvasRef := canvasRef r;
     streamRef := streamRef r;
     audioContextRef := v; processorRef := processorRef r;
     sourceRef := sourceRef r; frameIntervalRef := frameIntervalRef r;
     sessionRef := sessionRef r; processingRef := processingRef r |}.

Definition with_processorRef (v : option ScriptProcessorNode) (r : Refs)
  : Refs :=
  {| videoRef := videoRef r; canvasRef := canvasRef r;
     streamRef := streamRef r;
     audioContextRef := audioContextRef r; processorRef := v;
     sourceRef := sourceRef r; frameIntervalRef := frameIntervalRef r;
     sessionRef := sessionRef r; processingRef := processingRef r |}.

Definition with_sourceRef (v : option unit) (r : Refs) : Refs :=
  {| videoRef := videoRef r; canvasRef := canvasRef r;
     streamRef := streamRef r;
     audioContextRef := audioContextRef r; processorRef := processorRef r;
     sourceRef := v; frameIntervalRef := frameIntervalRef r;
     sessionRef := sessionRef r; processingRef := processingRef r |}.

Definition with_frameIntervalRef (v : option Z) (r : Refs) : Refs :=
  {| videoRef := videoRef r; canvasRef := canvasRef r;
     streamRef := streamRef r;
     audioContextRef := audioContextRef r; processorRef := processorRef r;
     sourceRef := sourceRef r; frameIntervalRef := v;
     sessionRef := sessionRef r; processingRef := processingRef r |}.

Definition with_sessionRef (v : option Session) (r : Refs) : Refs :=
  {| videoRef := videoRef r; canvasRef := canvasRef r;
     streamRef := streamRef r;
     audioContextRef := audioContextRef r; processorRef := processorRef r;
     sourceRef := sourceRef r; frameIntervalRef := frameIntervalRef r;
     sessionRef := v; processingRef := processingRef r |}.

Definition with_processingRef (v : bool) (r : Refs) : Refs :=
  {| videoRef := videoRef r; canvasRef := canvasRef r;
     streamRef := streamRef r;
     audioContextRef := audioContextRef r; processorRef := processorRef r;
     sourceRef := sourceRef r; frameIntervalRef := frameIntervalRef r;
     sessionRef := sessionRef r; processingRef := v |}.

(** *** Commands: a state-and-log monad over [World] *)

Definition M (A : Type) : Type := World -> A * World * list Call.

#[global] Instance M_ret : MRet M := fun A a w => (a, w, []).

#[global] Instance M_bind : MBind M := fun A B f m w =>
  let '(a, w1, c1) := m w in
  let '(b, w2, c2) := f a w1 in
  (b, w2, c1 ++ c2).

Definition get {A} (proj : World -> A) : M A := fun w => (proj w, w, []).

Definition getRef {A} (proj : Refs -> A) : M A :=
  fun w => (proj (refs w), w, []).

Definition setRef (upd : Refs -> Refs) : M unit :=
  fun w => (tt, set_refs (upd (refs w)) w, []).

Definition call (c : Call) : M unit := fun w => (tt, w, [c]).

Definition calls (cs : list Call) : M unit := fun w => (tt, w, cs).

Definition when (b : bool) (m : M unit) : M unit :=
  if b then m else mret tt.

(** [arr.forEach(f)]. *)
Fixpoint forEach {A} (f : A -> M unit) (l : list A) : M unit :=
  match l with
  | [] => mret tt
  | x :: l' => f x ;; forEach f l'
  end.

(** [dispatch(action)]: the reducer runs on the state React holds. *)
Definition dispatch (action : Action) : M unit := fun w =>
  (tt,
   set_reducerState (appReducer (now_locale w) (reducerState w) action) w,
   [Dispatch action]).

(** [window.setInterval(cb, ms)]: a fresh id, and the timer runs. *)
Definition setInterval (ms : Z) : M Z := fun w =>
  let id := next_timer w in
  (id, set_timers ({[ id ]} ∪ timers w) (id + 1) w, [SetInterval id ms]).

(** [clearInterval(id)]: the timer, if it runs, is removed; an id that
    names no running timer is ignored. *)
Definition clearInterval (id : Z) : M unit := fun w =>
  (tt, set_timers (timers w ∖ {[ id ]}) (next_timer w) w, [ClearInterval id]).

Definition world_of {A} (r : A * World * list Call) : World := r.1.2.
Definition log_of {A} (r : A * World * list Call) : list Call := r.2.
Definition value_of {A} (r : A * World * list Call) : A := r.1.1.

(** *** The closures of one render of [App] *)

Section Render.

(** [createPcmBlob] of [utils/audioUtils]. *)
Context (createPcmBlob : list number -> Blob).

(** The [state] constant of this render: what [useReducer] returned when
    [App] ran and created the closures below. A later dispatch makes React
    render again and create new closures; those already handed out keep
    this [state]. *)
Context (state : AppState).

(** [stopStreaming], one guarded step at a time, in the source's order. *)

Definition stop_frameInterval : M unit :=
  id ← getRef frameIntervalRef;
  match id with
  | Some i => when (truthy i) (clearInterval i)
  | None => mret tt
  end.

Definition stop_processor : M unit :=
  p ← getRef processorRef;
  match p with
  | Some _ => call (NodeDisconnect ProcessorNode) ;;
              setRef (with_processorRef None)
  | None => mret tt
  end.

Definition stop_source : M unit :=
  s ← getRef sourceRef;
  match s with
  | Some _ => call (NodeDisconnect SourceNode) ;;
              setRef (with_sourceRef None)
  | None => mret tt
  end.

Definition stop_audioContext : M unit :=
  c ← getRef audioContextRef;
  match c with
  | Some _ => call AudioContextClose ;;
              setRef (with_audioContextRef None)
  | None => mret tt
  end.

Definition stop_stream : M unit :=
  s ← getRef streamRef;
  match s with
  | Some tracks => forEach (fun track => call (TrackStop track)) tracks ;;
                   setRef (with_streamRef None)
  | None => mret tt
  end.

Definition clear_session : M unit := setRef (with_sessionRef None).

Definition stopStreaming : M unit :=
  stop_frameInterval ;;
  stop_processor ;;
  stop_source ;;
  stop_audioContext ;;
  stop_stream ;;
  clear_session.

Definition disconnect : M unit :=
  stopStreaming ;;
  dispatch (SET_CONNECTION DISCONNECTED).

(** The handler assigned to [processor.onaudioprocess] by [startStreaming].
    It reads [state] and [session] of the closure it was created in. *)
Definition audio_handler (session : Session) (inputData : list number)
  : list Call :=
  if negb (isMicOn state) then []
  else
    let pcmBlob := createPcmBlob inputData in
    [SendRealtimeInput session (PcmMedia pcmBlob)].

(** The callback given to [setInterval], up to its [await] ... *)
Definition frame_tick (session : Session) (p : VideoProbe) : M Await :=
  video ← getRef videoRef;
  canvas ← getRef canvasRef;
  processing ← getRef processingRef;
  if video && canvas && negb processing then
    setRef (with_processingRef true) ;;
    if has_ctx p && (readyState p =? 4) then
      call (DrawImage 320 240) ;;
      call (SendRealtimeInput session
              (InlineMedia "image/jpeg" (jpeg_base64 p))) ;;
      mret AwaitSend
    else
      setRef (with_processingRef false) ;;
      mret Returned
  else mret Returned.

(** ... and from there on, once the send has settled ([ok = false]: it
    was rejected, which the [catch] logs). *)
Definition frame_tick_settled (ok : bool) : M unit :=
  when (negb ok) (call (ConsoleError "Frame send error")) ;;
  setRef (with_processingRef false).

(** [startStreaming]: the video part. *)
Definition startStreaming_video : M Await :=
  id ← setInterval 500;
  setRef (with_frameIntervalRef (Some id)) ;;
  mret Returned.

(** [startStreaming]: the audio part after the context is running. *)
Definition startStreaming_resumed (session : Session) : M Await :=
  setRef (with_sourceRef (Some tt)) ;;
  setRef (with_processorRef
            (Some {| onaudioprocess := audio_handler session |})) ;;
  call (NodeConnect SourceNode) ;;
  call (NodeConnect ProcessorNode) ;;
  startStreaming_video.

Definition startStreaming (session : Session) : M Await :=
  stream ← getRef streamRef;
  match stream with
  | Some _ =>
      call (NewAudioContext 16000) ;;
      setRef (with_audioContextRef (Some tt)) ;;
      suspended ← get context_suspended;
      if (suspended : bool) then call AudioContextResume ;; mret AwaitResume
      else startStreaming_resumed session
  | None => startStreaming_video
  end.

(** [connect], up to its first [await]. *)
Definition connect : M Await :=
  apiKey ← get API_KEY;
  if negb (truthy apiKey) then
    call (ConsoleError "API_KEY is missing in environment variables.") ;;
    mret Returned
  else
    dispatch (SET_CONNECTION CONNECTING) ;;
    call GetUserMedia ;;
    mret AwaitUserMedia.

(** [connect] from [new GoogleGenAI] to [await sessionPromise]. *)
Definition connect_open_session : M Await :=
  call LiveConnect ;;
  mret AwaitSession.

(** [connect] after [getUserMedia] resolved with [stream]. *)
Definition connect_got_stream (stream : list Track) : M Await :=
  setRef (with_streamRef (Some stream)) ;;
  video ← getRef videoRef;
  if (video : bool) then call (VideoPlay stream) ;; mret AwaitPlay
  else connect_open_session.

(** [connect] after [sessionPromise] resolved. *)
Definition connect_got_session (session : Session) : M Await :=
  setRef (with_sessionRef (Some session)) ;;
  mret Returned.

(** The [catch] block of [connect]. *)
Definition connect_catch : M Await :=
  call (ConsoleError "Connection failed:") ;;
  dispatch (SET_CONNECTION ERROR) ;;
  stopStreaming ;;
  mret Returned.

(** The callbacks given to [client.live.connect]. *)

Definition onopen : M unit :=
  call (ConsoleLog "Gemini Live Session Opened") ;;
  dispatch (SET_CONNECTION CONNECTED).

(** The function [onopen] hands to [sessionPromise.then]. [startStreaming]
    is the one of the same render as [connect]. *)
Definition onopen_then (s : Session) : M Await :=
  r ← startStreaming s;
  call (Send s "Begin continuous visual analysis.") ;;
  mret r.

Definition on_function_call (fc : FunctionCall) : M unit :=
  if String.eqb (fc_name fc) "report_analysis" then
    let data := fc_args fc in
    iso ← get now_iso;
    let frame := decode_frame iso data in
    dispatch (ADD_FRAME frame)
  else mret tt.

(** The function [onmessage] hands to [sessionPromise.then] for a call:
    the acknowledgement. These run once the [forEach] is over, in the
    order they were registered. *)
Definition tool_response (s : Session) (fc : FunctionCall) : M unit :=
  if String.eqb (fc_name fc) "report_analysis" then
    call (SendToolResponse s (fc_id fc) (fc_name fc) "ok")
  else mret tt.

Definition onmessage (s : Session) (msg : LiveServerMessage) : M unit :=
  match toolCall msg with
  | Some functionCalls =>
      forEach on_function_call functionCalls ;;
      forEach (tool_response s) functionCalls
  | None => mret tt
  end.

Definition onclose : M unit :=
  call (ConsoleLog "Session Closed") ;;
  stopStreaming ;;
  dispatch (SET_CONNECTION DISCONNECTED).

Definition onerror : M unit :=
  call (ConsoleError "Session Error") ;;
  dispatch (SET_CONNECTION ERROR) ;;
  stopStreaming.

End Render.

(** *** What the host does to the component *)

(** The capture subsystem delivers a buffer to the processor node: the
    handler assigned to it runs. *)
Definition audioprocess (inputData : list number) : M unit :=
  p ← getRef processorRef;
  match p with
  | Some node => calls (onaudioprocess node inputData)
  | None => mret tt
  end.

(** The mic button: [onClick={() => dispatch({ type: 'TOGGLE_MIC' })}]. *)
Definition click_toggle_mic : M unit := dispatch TOGGLE_MIC.

(** A run of [connect] from the render current at the click, in which
    every awaited promise resolves: the stream is granted, the video plays,
    the session opens ([onopen]), [sessionPromise] resolves, and the
    function given to [then] starts the producers. *)
Definition connect_and_open (createPcmBlob : list number -> Blob)
    (stream : list Track) (s : Session) : M Await :=
  state ← get reducerState;
  r ← connect;
  match r with
  | AwaitUserMedia =>
      r ← connect_got_stream stream;
      match r with AwaitPlay => connect_open_session | _ => mret r end ;;
      onopen ;;
      connect_got_session s ;;
      onopen_then createPcmBlob state s
  | _ => mret r
  end.

(** The video producer under an arbitrary schedule of timer ticks and
    settled sends. *)
Inductive VideoEvent :=
| Tick (p : VideoProbe)
| Settled (ok : bool).

Fixpoint run_video (session : Session) (evs : list VideoEvent) : M unit :=
  match evs with
  | [] => mret tt
  | Tick p :: rest => frame_tick session p ;; run_video session rest
  | Settled ok :: rest => frame_tick_settled ok ;; run_video session rest
  end.

(** The frames on screen at the ticks of a schedule, in order. *)
Definition offered (evs : list VideoEvent) : list string :=
  omap (fun e => match e with
                 | Tick p => Some (jpeg_base64 p)
                 | Settled _ => None
                 end) evs.

(** The image payloads transmitted in a log, in order. *)
Definition images_sent (log : list Call) : list string :=
  omap (fun c => match c with
                 | SendRealtimeInput _ (InlineMedia _ data) => Some data
                 | _ => None
                 end) log.

(** Calls that acquire a media device or a remote session. *)
Definition is_acquisition (c : Call) : bool :=
  match c with
  | GetUserMedia | LiveConnect | NewAudioContext _ | SetInterval _ _ => true
  | _ => false
  end.

(** Calls that change what [useReducer] holds. *)
Definition is_dispatch (c : Call) : bool :=
  match c with
  | Dispatch _ => true
  | _ => false
  end.

(** The refs with every resource handle that [stopStreaming] nulls set to
    null. [frameIntervalRef] is not among them: the source clears the
    timer and keeps the id. *)
Definition released (r : Refs) : Refs :=
  {| videoRef := videoRef r; canvasRef := canvasRef r;
     streamRef := None; audioContextRef := None; processorRef := None;
     sourceRef := None; frameIntervalRef := frameIntervalRef r;
     sessionRef := None; processingRef := processingRef r |}.

(** The running timers once the one named by [frameIntervalRef] is
    cleared. *)
Definition timers_cleared (r : Refs) (t : gset Z) : gset Z :=
  match frameIntervalRef r with
  | Some i => if truthy i then t ∖ {[ i ]} else t
  | None => t
  end.

(** No media, audio-graph or session resource is held, and no timer of the
    component runs. *)
Definition nothing_acquired (w : World) : Prop :=
  released (refs w) = refs w /\ timers_cleared (refs w) (timers w) = timers w.

(** The component was never connected: every resource ref still holds its
    initial [null]. *)
Definition never_acquired (r : Refs) : Prop :=
  streamRef r = None /\ audioContextRef r = None /\ processorRef r = None /\
  sourceRef r = None /\ frameIntervalRef r = None /\ sessionRef r = None.

End Component.

Arguments Media : clear implicits.
Arguments Call : clear implicits.
Arguments ScriptProcessorNode : clear implicits.
Arguments Refs : clear implicits.
Arguments World : clear implicits.
Arguments M : clear implicits.

Local Close Scope Z_scope.

(** ** The specification's reading of the decoder *)

(** Every property that is present in the payload reaches the frame as it
    is (the specification's wording, for comparison with [decode_frame]). *)
Definition present_taken_unchanged (data : Args) (frame : AnalysisFrame)
  : Prop :=
  (forall v, arg_dominant_emotion data = Some v -> dominant_emotion frame = v)
  /\ (forall v, arg_confidence data = Some v -> confidence frame = v)
  /\ (forall v, arg_micro_expression data = Some v ->
                micro_expression frame = Some v)
  /\ (forall v, arg_active_aus data = Some v -> active_aus frame = v)
  /\ (forall v, arg_incongruence data = Some v -> incongruence frame = v)
  /\ (forall v, arg_baseline_deviation data = Some v ->
                baseline_deviation frame = v)
  /\ (forall v, arg_analysis_summary data = Some v ->
                analysis_summary frame = v).

(** ** Sample inputs *)

(** The frame a payload carrying only [baseline_deviation = p] decodes to. *)
Definition sample_frame (p : positive) : AnalysisFrame :=
  decode_frame "2025-01-01T00:00:00.000Z"
    {| arg_dominant_emotion := None;
       arg_confidence := None;
       arg_micro_expression := None;
       arg_active_aus := None;
       arg_incongruence := None;
       arg_baseline_deviation := Some (of_pos p);
       arg_analysis_summary := None |}.

(** Add-frame events with [baseline_deviation] = 1, 2, ..., [n], all
    reduced at the same clock reading. *)
Definition sample_events (n : nat) : list (string * AnalysisFrame) :=
  (fun i => ("10:00:00 AM"%string, sample_frame (Pos.of_nat i))) <$> seq 1 n.

(** A payload in which every property is present, the emotion being the
    empty string. *)
Definition args_empty_emotion : Args :=
  {| arg_dominant_emotion := Some ""%string;
     arg_confidence := Some (of_pos 80);
     arg_micro_expression := Some "smirk"%string;
     arg_active_aus := Some ["AU12"%string];
     arg_incongruence := Some true;
     arg_baseline_deviation := Some (of_pos 10);
     arg_analysis_summary := Some "calm"%string |}.

(** A payload in which every property is present and truthy. *)
Definition args_full : Args :=
  {| arg_dominant_emotion := Some "Happy"%string;
     arg_confidence := Some (of_pos 80);
     arg_micro_expression := Some "smirk"%string;
     arg_active_aus := Some ["AU12"%string];
     arg_incongruence := Some true;
     arg_baseline_deviation := Some (of_pos 10);
     arg_analysis_summary := Some "calm"%string |}.

(** A freshly mounted component: nothing acquired, credential [key]. *)
Definition fresh_world {Blob} (key : option string) : World Blob :=
  {| API_KEY := key;
     now_locale := "10:00:00 AM";
     now_iso := "2025-01-01T10:00:00.000Z";
     context_suspended := false;
     reducerState := initialState;
     refs := {| videoRef := true; canvasRef := true;
                streamRef := None; audioContextRef := None;
                processorRef := None; sourceRef := None;
                frameIntervalRef := None; sessionRef := None;
                processingRef := false |};
     timers := ∅;
     next_timer := 1 |}.

(** The same component while a frame send is in flight. *)
Definition busy_world {Blob} : World Blob :=
  set_refs (with_processingRef true (refs (fresh_world (Some "k"%string))))
    (fresh_world (Some "k"%string)).

(** ** The event log behind a state *)

(** The events dispatched after the last reset. *)
Definition since_reset (evs : list Dispatched) : list Dispatched :=
  fold_left (fun acc ev => match ev.2 with
                           | RESET => []
                           | _ => acc ++ [ev]
                           end) evs [].

(** The add-frame events of a log, each frame with its clock reading. *)
Definition added (evs : list Dispatched) : list (string * AnalysisFrame) :=
  omap (fun ev => match ev.2 with
                  | ADD_FRAME f => Some (ev.1, f)
                  | _ => None
                  end) evs.

(** The number of toggle-mic events of a log. *)
Definition toggles (evs : list Dispatched) : nat :=
  length (omap (fun ev => match ev.2 with
                          | TOGGLE_MIC => Some tt
                          | _ => None
                          end) evs).

(** The payload of the last set-connection event of a log, [c] if none. *)
Definition last_connection (c : ConnectionState) (evs : list Dispatched)
  : ConnectionState :=
  fold_left (fun acc ev => match ev.2 with
                           | SET_CONNECTION payload => payload
                           | _ => acc
                           end) evs c.

(** ** What [App] renders from the state *)

Inductive ControlButton :=
| ConnectButton (disabled : bool)
| DisconnectButton.

Definition ConnectionState_eqb (a b : ConnectionState) : bool :=
  match a, b with
  | DISCONNECTED, DISCONNECTED | CONNECTING, CONNECTING
  | CONNECTED, CONNECTED | ERROR, ERROR => true
  | _, _ => false
  end.

(** [const isConnected = state.connectionState === ConnectionState.CONNECTED]. *)
Definition isConnected (state : AppState) : bool :=
  ConnectionState_eqb (connectionState state) CONNECTED.

(** The button of the control panel: [connect] (disabled while connecting)
    unless connected, [disconnect] otherwise. *)
Definition control_button (state : AppState) : ControlButton :=
  if negb (isConnected state) then
    ConnectButton (ConnectionState_eqb (connectionState state) CONNECTING)
  else DisconnectButton.









(** [s.split(sep)] for a separator of one character. *)
Fixpoint split (sep : ascii) (s : string) : list string :=
  match s with
  | EmptyString => [EmptyString]
  | String c rest =>
      if Ascii.eqb c sep then EmptyString :: split sep rest
      else match split sep rest with
           | piece :: pieces => String c piece :: pieces
           | [] => [String c EmptyString]
           end
  end.

(** Whether the character [c] occurs in [s]. *)
Fixpoint has_char (c : ascii) (s : string) : bool :=
  match s with
  | EmptyString => false
  | String c' rest => Ascii.eqb c' c || has_char c rest
  end.

(** [f.timestamp.split('T')[1].split('.')[0]], the time shown on a log
    line. [None]: [split('T')[1]] is [undefined] and the call on it throws. *)
Definition log_time (f : AnalysisFrame) : option string :=
  match split "T"%char (timestamp f) !! 1%nat with
  | Some clock => split "."%char clock !! 0%nat
  | None => None
  end.

(** ** components/Charts.tsx: [ActionUnitGraph] *)

Record ActionUnit := mkActionUnit {
  au_name : string;
  au_code : string
}.

Definition allAUs : list ActionUnit :=
  [ {| au_name := "AU1 (Inner Brow)"; au_code := "AU1" |};
    {| au_name := "AU2 (Outer Brow)"; au_code := "AU2" |};
    {| au_name := "AU4 (Brow Lower)"; au_code := "AU4" |};
    {| au_name := "AU6 (Cheek Raise)"; au_code := "AU6" |};
    {| au_name := "AU9 (Nose Wrinkle)"; au_code := "AU9" |};
    {| au_name := "AU12 (Lip Corner)"; au_code := "AU12" |};
    {| au_name := "AU15 (Lip Corner)"; au_code := "AU15" |};
    {| au_name := "AU20 (Lip Stretch)"; au_code := "AU20" |} ].

(** One bar of the chart; [bar_value] is the literal 100 or 5. *)
Record BarDatum := mkBarDatum {
  bar_name : string;
  bar_value : Z;
  bar_code : string
}.

(** [arr.includes(x)] on strings. *)
Definition includes (arr : list string) (x : string) : bool :=
  existsb (String.eqb x) arr.

(** The [data] constant of [ActionUnitGraph]. *)
Definition ActionUnitGraph_data (activeAus : list string) : list BarDatum :=
  (fun au => {| bar_name := au_name au;
                bar_value := if includes activeAus (au_code au)
                             then 100%Z else 5%Z;
                bar_code := au_code au |}) <$> allAUs.

(** The [fill] of a bar's [Cell]. *)
Definition cell_fill (entry : BarDatum) : string :=
  if (bar_value entry >? 50)%Z then "#10b981" else "#334155".

(** ** Further vocabulary for the lifecycle *)


(** Calls addressed to the remote service or the live session. *)
Definition is_session_call {Blob} (c : Call Blob) : bool :=
  match c with
  | LiveConnect | Send _ _ | SendRealtimeInput _ _
  | SendToolResponse _ _ _ _ => true
  | _ => false
  end.

(** The browser hands out positive timer ids in increasing order: every
    running timer was handed out before the next id. *)
Definition timers_fresh {Blob} (w : World Blob) : Prop :=
  (0 < next_timer w)%Z /\ forall i, i ∈ timers w -> (i < next_timer w)%Z.

(** A component holding every resource: timer [i], processor, source,
    context, and the stream [tracks]. *)
Definition fully_acquired {Blob} (w : World Blob) (i : Z)
    (tracks : list Track) : Prop :=
  frameIntervalRef (refs w) = Some i /\ truthy i = true
  /\ is_Some (processorRef (refs w)) /\ is_Some (sourceRef (refs w))
  /\ is_Some (audioContextRef (refs w))
  /\ streamRef (refs w) = Some tracks.

(** A component whose stream was granted and whose audio context will
    start suspended. *)
Definition granted_suspended_world {Blob} : World Blob :=
  {| API_KEY := Some "key"%string;
     now_locale := "10:00:00 AM";
     now_iso := "2025-01-01T10:00:00.000Z";
     context_suspended := true;
     reducerState := initialState;
     refs := with_streamRef (Some [1; 2]) (refs (fresh_world None));
     timers := ∅;
     next_timer := 1 |}.

(** ** The reducer: bounded buffers *)

Section SliceFacts.

Context {A : Type}.
Implicit Types l k : list A.

Lemma rel_index_nonneg (len i : Z) :
  (0 ≤ i)%Z -> rel_index len i = Z.min i len.
Proof. intros Hi. unfold rel_index. destruct (Z.ltb_spec i 0); [lia | done]. Qed.

Lemma rel_index_neg (len i : Z) :
  (i < 0)%Z -> rel_index len i = Z.max (len + i) 0.
Proof. intros Hi. unfold rel_index. destruct (Z.ltb_spec i 0); [done | lia]. Qed.

Lemma slice_0_50 l : slice 0 (Some 50%Z) l = take 50 l.
Proof.
  unfold slice. rewrite !rel_index_nonneg by lia.
  replace (Z.to_nat (Z.min 0 (Z.of_nat (length l)))) with 0 by lia.
  rewrite drop_0.
  destruct (decide (length l ≤ 50)) as [Hle | Hgt].
  - rewrite !take_ge; [done | lia | lia].
  - f_equal. lia.
Qed.

Lemma slice_last_60 l : slice (-60) None l = last_n 60 l.
Proof.
  unfold slice, last_n. rewrite rel_index_neg by lia.
  replace (Z.to_nat (Z.max (Z.of_nat (length l) + -60) 0))
    with (length l - 60) by lia.
  apply take_ge. rewrite length_drop. lia.
Qed.

Lemma take_app_take n l k : take n (l ++ take n k) = take n (l ++ k).
Proof.
  rewrite !take_app, take_take. do 2 f_equal. lia.
Qed.

Lemma last_n_app_last_n n l k : last_n n (last_n n l ++ k) = last_n n (l ++ k).
Proof.
  unfold last_n. rewrite !drop_app, drop_drop, !length_app, !length_drop.
  f_equal; f_equal; lia.
Qed.

Lemma length_last_n n l : length (last_n n l) = min n (length l).
Proof. unfold last_n. rewrite length_drop. lia. Qed.

Lemma reverse_last_n n l : reverse (last_n n l) = take n (reverse l).
Proof. unfold last_n. by rewrite take_reverse. Qed.

End SliceFacts.

Lemma fmap_last_n {A B} (f : A -> B) n (l : list A) :
  f <$> last_n n l = last_n n (f <$> l).
Proof. unfold last_n. by rewrite fmap_drop, length_fmap. Qed.

Lemma reduce_all_cons ev evs s :
  reduce_all (ev :: evs) s = reduce_all evs (appReducer ev.1 s ev.2).
Proof. reflexivity. Qed.

Lemma frames_add_frame now s f :
  frames (appReducer now s (ADD_FRAME f)) = take 50 (f :: frames s).
Proof. exact (slice_0_50 (f :: frames s)). Qed.

Lemma timeline_add_frame now s f :
  timelineData (appReducer now s (ADD_FRAME f)) =
  last_n 60 (timelineData s ++ [point_of (now, f)]).
Proof. exact (slice_last_60 (timelineData s ++ [point_of (now, f)])). Qed.


Lemma reduce_all_snoc evs ev s :
  reduce_all (evs ++ [ev]) s = appReducer ev.1 (reduce_all evs s) ev.2.
Proof. unfold reduce_all. by rewrite fold_left_app. Qed.

Lemma add_frames_snoc fs p :
  add_frames (fs ++ [p]) = add_frames fs ++ [(p.1, ADD_FRAME p.2)].
Proof. unfold add_frames. by rewrite fmap_app. Qed.

(** Closed form of both buffers after a run of add-frame events. *)
Lemma add_frames_closed_form fs :
  frames (reduce_all (add_frames fs) initialState) = take 50 (reverse (fs.*2))
  /\ timelineData (reduce_all (add_frames fs) initialState) =
     last_n 60 (point_of <$> fs).
Proof.
  induction fs as [| [now f] fs [IHf IHt]] using rev_ind; [done |].
  rewrite add_frames_snoc, reduce_all_snoc. cbn [fst snd]. split.
  - rewrite frames_add_frame, IHf, fmap_app, reverse_app. cbn.
    apply (take_app_take 50 [f]).
  - rewrite timeline_add_frame, IHt, fmap_app. cbn.
    apply last_n_app_last_n.
Qed.

(** ** The reducer: claims *)

(** C1. After any sequence of add-frame events from the initial state the
    history is the reversed sequence of frames cut to its first 50: it is
    most-recent-first, its length is min(50, number of events) and so at
    most 50, the current frame is the last one added, and one more
    add-frame puts the new frame in front of the 49 most recent ones, so
    that at the cap it is the oldest entry that goes. *)
Theorem history_fifo_capped (fs : list (string * AnalysisFrame)) :
  let s := reduce_all (add_frames fs) initialState in
  frames s = take 50 (reverse (fs.*2))
  /\ length (frames s) = min 50 (length fs)
  /\ length (frames s) ≤ 50
  /\ currentFrame s = last (fs.*2)
  /\ forall now f,
       frames (appReducer now s (ADD_FRAME f)) = f :: take 49 (frames s).
Proof.
  intros s. destruct (add_frames_closed_form fs) as [Hf _]. fold s in Hf.
  assert (Hlen : length (frames s) = min 50 (length fs)).
  { by rewrite Hf, length_take, length_reverse, length_fmap. }
  repeat split.
  - exact Hf.
  - exact Hlen.
  - lia.
  - subst s. clear. induction fs as [| [now f] fs _] using rev_ind; [done |].
    rewrite add_frames_snoc, reduce_all_snoc, fmap_app.
    change ([(now, f)].*2) with [f]. by rewrite last_snoc.
  - intros now f. by rewrite frames_add_frame.
Qed.

(** The specification's scenario: 51 add-frame events with
    [baseline_deviation] 1 to 51 leave frames 51 down to 2, in that order;
    frame 1 is gone. *)
Example history_after_51 :
  frames (reduce_all (add_frames (sample_events 51)) initialState)
  = (fun i => sample_frame (Pos.of_nat i)) <$> reverse (seq 2 50).
Proof. vm_compute. reflexivity. Qed.

(** C2. After any sequence of add-frame events from the initial state the
    timeline is the last 60 of the derived points in chronological order,
    so it never exceeds 60 entries and loses its oldest entry first; the
    intensity of every entry is the [baseline_deviation] of the frame it
    was derived from; read backwards, the timeline lines up with the
    most-recent-first history entry by entry. *)
Theorem timeline_fifo_capped (fs : list (string * AnalysisFrame)) :
  let s := reduce_all (add_frames fs) initialState in
  timelineData s = last_n 60 (point_of <$> fs)
  /\ length (timelineData s) = min 60 (length fs)
  /\ length (timelineData s) ≤ 60
  /\ intensity <$> timelineData s = baseline_deviation <$> last_n 60 (fs.*2)
  /\ take 50 (reverse (intensity <$> timelineData s))
     = baseline_deviation <$> frames s.
Proof.
  intros s. destruct (add_frames_closed_form fs) as [Hf Ht].
  fold s in Hf, Ht.
  assert (Hlen : length (timelineData s) = min 60 (length fs)).
  { by rewrite Ht, length_last_n, length_fmap. }
  assert (Hint : intensity <$> timelineData s
                 = baseline_deviation <$> last_n 60 (fs.*2)).
  { rewrite Ht, !fmap_last_n. f_equal. rewrite <- !list_fmap_compose. done. }
  repeat split.
  - exact Ht.
  - exact Hlen.
  - lia.
  - exact Hint.
  - rewrite Hint, Hf, <- fmap_reverse, reverse_last_n, fmap_take, take_take.
    by rewrite fmap_take.
Qed.

Lemma last_n_snoc {A} n (l : list A) x :
  last_n (S n) (l ++ [x]) = last_n n l ++ [x].
Proof.
  unfold last_n. rewrite length_app, drop_app. cbn [length].
  replace (length l + 1 - S n) with (length l - n) by lia.
  replace (length l - n - length l) with 0 by lia. done.
Qed.

(** C3, refuted as stated: the same state and the same add-frame event,
    reduced at two clock readings, give two different states. *)
Lemma reducer_reads_clock :
  appReducer "10:00:00 AM" initialState (ADD_FRAME (sample_frame 1))
  <> appReducer "10:00:01 AM" initialState (ADD_FRAME (sample_frame 1)).
Proof.
  intros H. apply (f_equal timelineData) in H.
  vm_compute in H. discriminate H.
Qed.

(** C3, amended. Two evaluations of the reducer on the same state and
    event, at whatever clock readings, give equal states for
    set-connection, toggle-mic and reset. For add-frame they agree on the
    connection state, the history, the current frame and the mic flag, and
    their timelines agree on every entry but the newest, whose intensity
    and emotion agree too: only the time label of the newest timeline
    entry is the clock's. *)
Theorem reducer_deterministic_up_to_clock
    (now1 now2 : string) (s : AppState) (e : Action) :
  let s1 := appReducer now1 s e in
  let s2 := appReducer now2 s e in
  match e with
  | ADD_FRAME f =>
      connectionState s1 = connectionState s2
      /\ frames s1 = frames s2
      /\ currentFrame s1 = currentFrame s2
      /\ isMicOn s1 = isMicOn s2
      /\ (exists older,
            timelineData s1 = older ++ [point_of (now1, f)]
            /\ timelineData s2 = older ++ [point_of (now2, f)])
      /\ intensity <$> timelineData s1 = intensity <$> timelineData s2
      /\ emotion <$> timelineData s1 = emotion <$> timelineData s2
  | SET_CONNECTION _ | TOGGLE_MIC | RESET => s1 = s2
  end.
Proof.
  destruct e as [c | f | |]; cbv zeta; try reflexivity.
  assert (Hold : exists older,
            timelineData (appReducer now1 s (ADD_FRAME f))
              = older ++ [point_of (now1, f)]
            /\ timelineData (appReducer now2 s (ADD_FRAME f))
              = older ++ [point_of (now2, f)]).
  { exists (last_n 59 (timelineData s)).
    by rewrite !timeline_add_frame, !last_n_snoc. }
  repeat split; try exact Hold.
  - destruct Hold as (older & -> & ->). by rewrite !fmap_app.
  - destruct Hold as (older & -> & ->). by rewrite !fmap_app.
Qed.

(** C9. Toggle-mic negates the mic flag and leaves the connection state,
    the history, the current frame and the timeline as they were. *)
Theorem toggle_mic_flips_only_mic (now : string) (s : AppState) :
  let s' := appReducer now s TOGGLE_MIC in
  isMicOn s' = negb (isMicOn s)
  /\ connectionState s' = connectionState s
  /\ frames s' = frames s
  /\ currentFrame s' = currentFrame s
  /\ timelineData s' = timelineData s.
Proof. by repeat split. Qed.

(** C10. Reset after any sequence of events, indeed from any state, gives
    the initial state: disconnected, no history, no timeline, no current
    frame, mic on. *)
Theorem reset_restores_initial (now : string) (evs : list Dispatched)
    (s : AppState) :
  appReducer now (reduce_all evs initialState) RESET = initialState
  /\ appReducer now s RESET = initialState
  /\ initialState = {| connectionState := DISCONNECTED; frames := [];
                       currentFrame := None; timelineData := [];
                       isMicOn := true |}.
Proof. by repeat split. Qed.

(** ** The decoder: claims *)

(** C5, refuted as stated: a payload whose [dominant_emotion] is present,
    and is the empty string, decodes to a frame whose emotion is
    ["Neutral"]: a present property did not reach the frame unchanged. *)
Lemma empty_emotion_replaced :
  ~ present_taken_unchanged args_empty_emotion
      (decode_frame "2025-01-01T00:00:00.000Z" args_empty_emotion).
Proof.
  intros (Hemotion & _). specialize (Hemotion ""%string eq_refl).
  vm_compute in Hemotion. discriminate Hemotion.
Qed.

(** A ["report_analysis"] call arriving in a message is decoded with the
    clock's ISO reading, dispatched as an add-frame event and then
    acknowledged with ["ok"]. *)
Lemma onmessage_report_analysis {Blob} (s : Session) (id : string)
    (data : Args) (w : World Blob) :
  log_of (onmessage s
            (mkLiveServerMessage
               (Some [mkFunctionCall id "report_analysis" data])) w)
  = [Dispatch (ADD_FRAME (decode_frame (now_iso w) data));
     SendToolResponse s id "report_analysis" "ok"].
Proof. reflexivity. Qed.

(** C5, amended. Every absent property decodes to its default: emotion
    ["Neutral"], confidence 0, no micro-expression, no action units,
    incongruence false, baseline deviation 0, summary ["Processing..."].
    A present property is taken as it is when it is truthy; a boolean and
    a list are always taken as they are. A present falsy string or number
    (the empty string; 0, -0, NaN) decodes to the default of its field. *)
Theorem decode_frame_defaults (iso : string) (data : Args) :
  let frame := decode_frame iso data in
  timestamp frame = iso
  /\ (arg_dominant_emotion data = None -> dominant_emotion frame = "Neutral"%string)
  /\ (arg_confidence data = None -> confidence frame = zero)
  /\ (arg_micro_expression data = None -> micro_expression frame = None)
  /\ (arg_active_aus data = None -> active_aus frame = [])
  /\ (arg_incongruence data = None -> incongruence frame = false)
  /\ (arg_baseline_deviation data = None -> baseline_deviation frame = zero)
  /\ (arg_analysis_summary data = None ->
      analysis_summary frame = "Processing..."%string)
  /\ (forall v, arg_dominant_emotion data = Some v ->
        dominant_emotion frame = if truthy v then v else "Neutral"%string)
  /\ (forall v, arg_confidence data = Some v ->
        confidence frame = if truthy v then v else zero)
  /\ (forall v, arg_micro_expression data = Some v ->
        micro_expression frame = if truthy v then Some v else None)
  /\ (forall v, arg_active_aus data = Some v -> active_aus frame = v)
  /\ (forall v, arg_incongruence data = Some v -> incongruence frame = v)
  /\ (forall v, arg_baseline_deviation data = Some v ->
        baseline_deviation frame = if truthy v then v else zero)
  /\ (forall v, arg_analysis_summary data = Some v ->
        analysis_summary frame = if truthy v then v else "Processing..."%string).
Proof.
  destruct data as [e c m a i b t]. cbn.
  repeat split; try (intros ->; reflexivity); try (intros v ->; reflexivity).
  intros [] ->; reflexivity.
Qed.

(** A confidence that is present but [NaN] decodes to 0, and an empty list
    of action units stays the empty list it is. *)
Example decode_nan_confidence :
  confidence
    (decode_frame "t" (mkArgs None (Some NaN) None (Some []) None None None))
  = zero
  /\ active_aus
       (decode_frame "t" (mkArgs None (Some NaN) None (Some []) None None None))
     = [].
Proof. by split. Qed.

(** [decode_frame_defaults] at a payload with every property present and
    truthy, and at the empty payload. *)
Lemma decode_frame_defaults_witness :
  dominant_emotion (decode_frame "t" args_full) = "Happy"%string
  /\ analysis_summary
       (decode_frame "t" (mkArgs None None None None None None None))
     = "Processing..."%string.
Proof.
  split.
  - exact (proj1 (proj2 (proj2 (proj2 (proj2 (proj2 (proj2 (proj2 (proj2
             (decode_frame_defaults "t" args_full)))))))))
             "Happy"%string eq_refl).
  - exact (proj1 (proj2 (proj2 (proj2 (proj2 (proj2 (proj2 (proj2
             (decode_frame_defaults "t"
                (mkArgs None None None None None None None)))))))))
             eq_refl).
Defined.

(** ** The session lifecycle: how the commands run *)

Section LifecycleFacts.

Context {Blob : Type}.
Implicit Types w : World Blob.

Lemma bind_unfold {A B} (m : M Blob A) (f : A -> M Blob B) w :
  (m ≫= f) w =
  (value_of (f (value_of (m w)) (world_of (m w))),
   world_of (f (value_of (m w)) (world_of (m w))),
   log_of (m w) ++ log_of (f (value_of (m w)) (world_of (m w)))).
Proof.
  unfold mbind, M_bind, value_of, world_of, log_of.
  destruct (m w) as [[a w1] c1]. cbn. by destruct (f a w1) as [[b w2] c2].
Qed.

Lemma bind_run {A B} (m : M Blob A) (f : A -> M Blob B) w a w1 c1 b w2 c2 :
  m w = (a, w1, c1) -> f a w1 = (b, w2, c2) ->
  (m ≫= f) w = (b, w2, c1 ++ c2).
Proof. intros Hm Hf. unfold mbind, M_bind. by rewrite Hm, Hf. Qed.

Lemma forEach_call {A} (f : A -> Call Blob) (l : list A) w :
  forEach (fun x => call (f x)) l w = (tt, w, f <$> l).
Proof.
  revert w. induction l as [| x l IH]; intros w; [done |].
  cbn [forEach]. rewrite bind_unfold, IH. done.
Qed.

Lemma stop_frameInterval_run w :
  stop_frameInterval w =
  (tt, set_timers (timers_cleared (refs w) (timers w)) (next_timer w) w,
   match frameIntervalRef (refs w) with
   | Some i => if truthy i then [ClearInterval i] else []
   | None => []
   end).
Proof.
  destruct w as [k nl ni cs st [v c sr ac pr so fi se pg] tm nt].
  destruct fi as [i |]; [| done].
  unfold stop_frameInterval, timers_cleared. rewrite bind_unfold. cbn.
  by destruct (truthy i).
Qed.

Lemma stop_processor_run w :
  stop_processor w =
  (tt, set_refs (with_processorRef None (refs w)) w,
   match processorRef (refs w) with
   | Some _ => [NodeDisconnect ProcessorNode]
   | None => []
   end).
Proof.
  destruct w as [k nl ni cs st [v c sr ac pr so fi se pg] tm nt].
  by destruct pr.
Qed.

Lemma stop_source_run w :
  stop_source w =
  (tt, set_refs (with_sourceRef None (refs w)) w,
   match sourceRef (refs w) with
   | Some _ => [NodeDisconnect SourceNode]
   | None => []
   end).
Proof.
  destruct w as [k nl ni cs st [v c sr ac pr so fi se pg] tm nt].
  by destruct so.
Qed.

Lemma stop_audioContext_run w :
  stop_audioContext w =
  (tt, set_refs (with_audioContextRef None (refs w)) w,
   match audioContextRef (refs w) with
   | Some _ => [AudioContextClose]
   | None => []
   end).
Proof.
  destruct w as [k nl ni cs st [v c sr ac pr so fi se pg] tm nt].
  by destruct ac.
Qed.

Lemma stop_stream_run w :
  stop_stream w =
  (tt, set_refs (with_streamRef None (refs w)) w,
   match streamRef (refs w) with
   | Some tracks => TrackStop <$> tracks
   | None => []
   end).
Proof.
  destruct w as [k nl ni cs st [v c sr ac pr so fi se pg] tm nt].
  destruct sr as [tracks |]; [| done].
  unfold stop_stream. etransitivity.
  { eapply bind_run; [reflexivity |]. cbn.
    eapply bind_run; [apply forEach_call | reflexivity]. }
  cbn. by rewrite app_nil_r.
Qed.

(** The calls [stopStreaming] makes, by the refs it finds. *)
Lemma stopStreaming_run w :
  stopStreaming w =
  (tt,
   set_refs (released (refs w))
     (set_timers (timers_cleared (refs w) (timers w)) (next_timer w) w),
   match frameIntervalRef (refs w) with
   | Some i => if truthy i then [ClearInterval i] else []
   | None => []
   end
   ++ match processorRef (refs w) with
      | Some _ => [NodeDisconnect ProcessorNode]
      | None => []
      end
   ++ match sourceRef (refs w) with
      | Some _ => [NodeDisconnect SourceNode]
      | None => []
      end
   ++ match audioContextRef (refs w) with
      | Some _ => [AudioContextClose]
      | None => []
      end
   ++ match streamRef (refs w) with
      | Some tracks => TrackStop <$> tracks
      | None => []
      end).
Proof.
  unfold stopStreaming. etransitivity.
  { eapply bind_run; [apply stop_frameInterval_run |].
    eapply bind_run; [apply stop_processor_run |].
    eapply bind_run; [apply stop_source_run |].
    eapply bind_run; [apply stop_audioContext_run |].
    eapply bind_run; [apply stop_stream_run | reflexivity]. }
  destruct w as [k nl ni cs st [v c sr ac pr so fi se pg] tm nt].
  cbn. by rewrite app_nil_r.
Qed.

Lemma set_setters_same w :
  set_refs (refs w) (set_timers (timers w) (next_timer w) w) = w.
Proof. by destruct w. Qed.

Lemma released_idemp (r : Refs Blob) : released (released r) = released r.
Proof. done. Qed.

Lemma timers_cleared_idemp (r : Refs Blob) (t : gset Z) :
  timers_cleared r (timers_cleared r t) = timers_cleared r t.
Proof.
  unfold timers_cleared. destruct (frameIntervalRef r) as [i |]; [| done].
  destruct (truthy i); [| done].
  apply set_eq. intros x. rewrite !elem_of_difference. tauto.
Qed.

Lemma set_connection_same now (s : AppState) :
  appReducer now s (SET_CONNECTION (connectionState s)) = s.
Proof. by destruct s. Qed.

Lemma disconnect_run w :
  disconnect w =
  (tt,
   set_reducerState
     (appReducer (now_locale w) (reducerState w) (SET_CONNECTION DISCONNECTED))
     (set_refs (released (refs w))
        (set_timers (timers_cleared (refs w) (timers w)) (next_timer w) w)),
   log_of (stopStreaming w) ++ [Dispatch (SET_CONNECTION DISCONNECTED)]).
Proof.
  unfold disconnect. erewrite bind_run; [| apply stopStreaming_run | reflexivity].
  rewrite stopStreaming_run. by destruct w.
Qed.

Lemma nothing_acquired_log w :
  nothing_acquired w ->
  Forall (fun c => exists i, c = ClearInterval i /\ i ∉ timers w)
    (log_of (stopStreaming w)).
Proof.
  intros [Hrel Htim]. rewrite stopStreaming_run.
  destruct w as [k nl ni cs st [v c sr ac pr so fi se pg] tm nt].
  unfold released, timers_cleared in *. cbn in *.
  injection Hrel as <- <- <- <- <-. cbn.
  destruct fi as [i |]; [| by constructor].
  destruct (truthy i); [| by constructor].
  repeat constructor. exists i. split; [done |].
  intros Hin. rewrite <- Htim in Hin.
  apply elem_of_difference in Hin as [_ Hni]. by apply Hni, elem_of_singleton.
Qed.

Lemma frame_tick_run (session : Session) (p : VideoProbe) w :
  frame_tick session p w =
  if videoRef (refs w) && canvasRef (refs w) && negb (processingRef (refs w))
  then
    if has_ctx p && (readyState p =? 4)%Z
    then (AwaitSend, set_refs (with_processingRef true (refs w)) w,
          [DrawImage 320 240;
           SendRealtimeInput session
             (InlineMedia "image/jpeg" (jpeg_base64 p))])
    else (Returned, set_refs (with_processingRef false (refs w)) w, [])
  else (Returned, w, []).
Proof.
  destruct w as [k nl ni cs st [v c sr ac pr so fi se pg] tm nt].
  destruct p as [hc rs b].
  unfold frame_tick. cbn [readyState has_ctx jpeg_base64 refs videoRef
                          canvasRef processingRef].
  destruct v, c, pg, hc, (rs =? 4)%Z; reflexivity.
Qed.

Lemma frame_tick_images (session : Session) (p : VideoProbe) w :
  images_sent (log_of (frame_tick session p w)) = []
  \/ images_sent (log_of (frame_tick session p w)) = [jpeg_base64 p].
Proof.
  rewrite frame_tick_run.
  destruct (_ && _ && _); [| by left].
  destruct (_ && _); [by right | by left].
Qed.

Lemma frame_tick_settled_run (ok : bool) w :
  frame_tick_settled ok w =
  (tt, set_refs (with_processingRef false (refs w)) w,
   if ok then [] else [ConsoleError "Frame send error"]).
Proof. by destruct ok. Qed.

Lemma images_sent_app (a b : list (Call Blob)) :
  images_sent (a ++ b) = images_sent a ++ images_sent b.
Proof. apply omap_app. Qed.

Lemma run_video_sublist (session : Session) (evs : list VideoEvent) w :
  images_sent (log_of (run_video session evs w)) `sublist_of` offered evs.
Proof.
  revert w. induction evs as [| [p | ok] evs IH]; intros w.
  - done.
  - cbn [run_video]. rewrite bind_unfold. unfold log_of at 1. cbn [snd].
    rewrite images_sent_app.
    change (offered (Tick p :: evs)) with ([jpeg_base64 p] ++ offered evs).
    apply sublist_app; [| apply IH].
    destruct (frame_tick_images session p w) as [-> | ->];
      [apply sublist_nil_l | done].
  - cbn [run_video]. rewrite bind_unfold. unfold log_of at 1. cbn [snd].
    rewrite images_sent_app, frame_tick_settled_run.
    change (offered (Settled ok :: evs)) with (offered evs).
    destruct ok; apply IH.
Qed.

End LifecycleFacts.

(** ** The session lifecycle: claims *)

(** A dispatch changes what [useReducer] holds and nothing else. *)
Lemma dispatch_keeps_refs {Blob} (a : Action) (w : World Blob) :
  refs (world_of (dispatch a w)) = refs w.
Proof. reflexivity. Qed.

(** What the audio callback does is decided by the processor node in the
    refs alone. *)
Lemma audioprocess_by_refs {Blob} (inputData : list number)
    (w w' : World Blob) :
  refs w = refs w' ->
  log_of (audioprocess inputData w) = log_of (audioprocess inputData w').
Proof.
  intros Hrefs. unfold audioprocess. rewrite !bind_unfold.
  unfold getRef, value_of, world_of, log_of. cbn. rewrite Hrefs.
  by destruct (processorRef (refs w')).
Qed.

(** C4, at the failing input. The component connects while the mic flag is
    on, the session opens and the producers start; the user then mutes the
    mic. The flag the reducer holds is off, and the next audio buffer is
    still encoded and transmitted: the handler reads the [state] of the
    render in which [connect] was called. Conversely, after connecting
    with the mic off and switching it on, buffers are dropped. No dispatch
    ever changes what the handler does. *)
Theorem muted_buffer_still_sent {Blob} (createPcmBlob : list number -> Blob)
    (stream : list Track) (s : Session) (inputData : list number) :
  let start := fresh_world (Some "key"%string) in
  let connected := world_of (connect_and_open createPcmBlob stream s start) in
  let muted := world_of (click_toggle_mic connected) in
  let start_off := world_of (click_toggle_mic start) in
  let connected_off :=
    world_of (connect_and_open createPcmBlob stream s start_off) in
  let unmuted := world_of (click_toggle_mic connected_off) in
  (connectionState (reducerState muted) = CONNECTED
   /\ isMicOn (reducerState muted) = false
   /\ log_of (audioprocess inputData muted)
      = [SendRealtimeInput s (PcmMedia (createPcmBlob inputData))])
  /\ (connectionState (reducerState unmuted) = CONNECTED
      /\ isMicOn (reducerState unmuted) = true
      /\ log_of (audioprocess inputData unmuted) = [])
  /\ (forall (a : Action) (w : World Blob),
        log_of (audioprocess inputData (world_of (dispatch a w)))
        = log_of (audioprocess inputData w)).
Proof.
  cbv zeta. split; [| split].
  - repeat split.
  - repeat split.
  - intros a w. apply audioprocess_by_refs, dispatch_keeps_refs.
Qed.

(** C6. When [process.env.API_KEY] is absent (or empty), [connect] returns
    at once: the component is as it was, the log holds the console message
    and nothing else, so no action was dispatched (the state does not pass
    through Connecting) and no media device, audio context, timer or remote
    session was asked for; a Disconnected state stays Disconnected. *)
Theorem connect_without_credential {Blob} (w : World Blob) :
  truthy (API_KEY w) = false ->
  let r := connect w in
  value_of r = Returned
  /\ world_of r = w
  /\ log_of r = [ConsoleError "API_KEY is missing in environment variables."]
  /\ Forall (fun c => is_dispatch c = false /\ is_acquisition c = false)
       (log_of r)
  /\ (connectionState (reducerState w) = DISCONNECTED ->
      connectionState (reducerState (world_of r)) = DISCONNECTED).
Proof.
  intros Hkey. cbv zeta.
  assert (Hrun : connect w =
    (Returned, w,
     [ConsoleError "API_KEY is missing in environment variables."])).
  { unfold connect. rewrite bind_unfold.
    unfold get, value_of, world_of, log_of. cbn. by rewrite Hkey. }
  rewrite Hrun. cbn. repeat split; try done.
  by repeat constructor.
Qed.

(** [connect_without_credential] on a freshly mounted component without a
    credential. *)
Lemma connect_without_credential_witness :
  world_of (connect (fresh_world (Blob := unit) None)) = fresh_world None.
Proof.
  exact (proj1 (proj2 (connect_without_credential (fresh_world None) eq_refl))).
Defined.

(** With a credential the same call dispatches Connecting and asks for the
    camera and microphone. *)
Lemma connect_with_credential {Blob} (w : World Blob) :
  truthy (API_KEY w) = true ->
  value_of (connect w) = AwaitUserMedia
  /\ log_of (connect w) = [Dispatch (SET_CONNECTION CONNECTING); GetUserMedia]
  /\ connectionState (reducerState (world_of (connect w))) = CONNECTING.
Proof.
  intros Hkey. unfold connect. rewrite bind_unfold.
  unfold get, value_of, world_of, log_of. cbn. by rewrite Hkey.
Qed.

(** C7. A tick that fires while the guard flag is set does nothing: it
    returns at once, the component is as it was (nothing is kept for
    later), and nothing is captured or sent; neither is anything sent when
    the send in flight settles afterwards. Under any schedule of ticks and
    settled sends, the images transmitted are, in order, a subsequence of
    the frames on screen at the ticks: frames are skipped, never repeated
    or reordered. *)
Theorem overlapping_tick_skipped {Blob} (session : Session) (p : VideoProbe)
    (ok : bool) (evs : list VideoEvent) (w : World Blob) :
  processingRef (refs w) = true ->
  frame_tick session p w = (Returned, w, [])
  /\ images_sent
       (log_of ((frame_tick session p ;; frame_tick_settled ok) w)) = []
  /\ forall w' : World Blob,
       images_sent (log_of (run_video session evs w')) `sublist_of` offered evs.
Proof.
  intros Hbusy.
  assert (Hrun : frame_tick session p w = (Returned, w, [])).
  { rewrite frame_tick_run, Hbusy. by rewrite andb_false_r. }
  split; [exact Hrun | split].
  - erewrite bind_run; [| exact Hrun | apply frame_tick_settled_run].
    by destruct ok.
  - intros w'. apply run_video_sublist.
Qed.

(** [overlapping_tick_skipped] on a component with a send in flight. *)
Lemma overlapping_tick_skipped_witness :
  frame_tick 7 (mkVideoProbe true 4 "AAAA") (busy_world (Blob := unit))
  = (Returned, busy_world, []).
Proof.
  exact (proj1 (overlapping_tick_skipped 7 (mkVideoProbe true 4 "AAAA")
                  true [] busy_world eq_refl)).
Defined.

(** With the flag clear and the video ready, the tick captures and sends
    the frame and sets the flag. *)
Lemma free_tick_sends {Blob} (session : Session) (data : string) :
  let r := frame_tick session (mkVideoProbe true 4 data)
             (fresh_world (Blob := Blob) (Some "key"%string)) in
  images_sent (log_of r) = [data]
  /\ processingRef (refs (world_of r)) = true.
Proof. by split. Qed.

(** C8. [disconnect] never fails and always ends Disconnected with nothing
    acquired. Called when already Disconnected with nothing acquired, it
    leaves the component exactly as it was, and the only call it can make
    besides the dispatch is a [clearInterval] of an id that names no
    running timer; so a second [disconnect] changes nothing. On a component
    that never acquired anything it makes no teardown call at all, and
    each teardown step by itself does nothing when its resource is
    absent, whatever the other refs hold. *)
Theorem disconnect_idempotent {Blob} (w : World Blob) :
  let w1 := world_of (disconnect w) in
  (connectionState (reducerState w1) = DISCONNECTED /\ nothing_acquired w1)
  /\ world_of (disconnect w1) = w1
  /\ (nothing_acquired w ->
      connectionState (reducerState w) = DISCONNECTED ->
      world_of (disconnect w) = w
      /\ Forall (fun c => c = Dispatch (SET_CONNECTION DISCONNECTED)
                          \/ exists i, c = ClearInterval i /\ i ∉ timers w)
           (log_of (disconnect w)))
  /\ (never_acquired (refs w) ->
      connectionState (reducerState w) = DISCONNECTED ->
      disconnect w = (tt, w, [Dispatch (SET_CONNECTION DISCONNECTED)]))
  /\ (frameIntervalRef (refs w) = None -> stop_frameInterval w = (tt, w, []))
  /\ (processorRef (refs w) = None -> stop_processor w = (tt, w, []))
  /\ (sourceRef (refs w) = None -> stop_source w = (tt, w, []))
  /\ (audioContextRef (refs w) = None -> stop_audioContext w = (tt, w, []))
  /\ (streamRef (refs w) = None -> stop_stream w = (tt, w, [])).
Proof.
  assert (Hnoop : forall w0 : World Blob,
    nothing_acquired w0 ->
    connectionState (reducerState w0) = DISCONNECTED ->
    world_of (disconnect w0) = w0).
  { intros w0 [Hrel Htim] Hst. rewrite disconnect_run.
    unfold world_of. cbn [fst snd].
    rewrite Hrel, Htim, set_setters_same, <- Hst, set_connection_same.
    by destruct w0. }
  assert (Hfirst : connectionState (reducerState (world_of (disconnect w)))
                   = DISCONNECTED
                   /\ nothing_acquired (world_of (disconnect w))).
  { rewrite disconnect_run. unfold world_of, nothing_acquired. cbn [fst snd].
    split; [reflexivity |]. split; [reflexivity |].
    exact (timers_cleared_idemp (refs w) (timers w)). }
  cbv zeta. split; [exact Hfirst |].
  split; [apply Hnoop; apply Hfirst |].
  split; [| split].
  - intros Hnone Hst. split; [by apply Hnoop |].
    rewrite disconnect_run. unfold log_of at 1. cbn [snd].
    apply Forall_app. split.
    + eapply Forall_impl; [by apply nothing_acquired_log |].
      intros c Hc. by right.
    + constructor; [by left | constructor].
  - intros (Hs & Ha & Hp & Hso & Hf & Hse) Hst.
    rewrite disconnect_run, stopStreaming_run. unfold log_of. cbn [snd].
    rewrite Hs, Ha, Hp, Hso, Hf. cbn [app].
    f_equal. f_equal.
    destruct w as [k nl ni cs st [v c sr ac pr so fi se pg] tm nt].
    cbn in *. subst. by destruct st; cbn in *; subst.
  - repeat split.
    + intros H. rewrite stop_frameInterval_run. unfold timers_cleared.
      rewrite H. by destruct w.
    + intros H. rewrite stop_processor_run, H.
      destruct w as [k nl ni cs st [v c sr ac pr so fi se pg] tm nt].
      cbn in *. by subst.
    + intros H. rewrite stop_source_run, H.
      destruct w as [k nl ni cs st [v c sr ac pr so fi se pg] tm nt].
      cbn in *. by subst.
    + intros H. rewrite stop_audioContext_run, H.
      destruct w as [k nl ni cs st [v c sr ac pr so fi se pg] tm nt].
      cbn in *. by subst.
    + intros H. rewrite stop_stream_run, H.
      destruct w as [k nl ni cs st [v c sr ac pr so fi se pg] tm nt].
      cbn in *. by subst.
Qed.

(** [disconnect_idempotent] on a freshly mounted component. *)
Lemma disconnect_idempotent_witness :
  disconnect (fresh_world (Blob := unit) None)
  = (tt, fresh_world None, [Dispatch (SET_CONNECTION DISCONNECTED)]).
Proof.
  apply (proj1 (proj2 (proj2 (proj2
           (disconnect_idempotent (fresh_world (Blob := unit) None)))))).
  - by repeat split.
  - reflexivity.
Defined.

(** ** Further properties of the reducer *)

Lemma since_reset_snoc evs ev :
  since_reset (evs ++ [ev]) =
  match ev.2 with
  | RESET => []
  | _ => since_reset evs ++ [ev]
  end.
Proof. unfold since_reset. by rewrite fold_left_app. Qed.

Lemma added_snoc evs ev :
  added (evs ++ [ev]) =
  added evs ++ match ev.2 with
               | ADD_FRAME f => [(ev.1, f)]
               | _ => []
               end.
Proof. unfold added. rewrite omap_app. cbn. by destruct (ev.2). Qed.

Lemma toggles_snoc evs ev :
  toggles (evs ++ [ev]) =
  match ev.2 with
  | TOGGLE_MIC => S (toggles evs)
  | _ => toggles evs
  end.
Proof.
  unfold toggles. rewrite omap_app, length_app. cbn.
  destruct (ev.2); cbn; lia.
Qed.

Lemma last_connection_snoc c evs ev :
  last_connection c (evs ++ [ev]) =
  match ev.2 with
  | SET_CONNECTION payload => payload
  | _ => last_connection c evs
  end.
Proof. unfold last_connection. by rewrite fold_left_app. Qed.

(** Every field of a reachable state, read off the events dispatched since
    the last reset. *)
Lemma reduce_all_closed_form (evs : list Dispatched) :
  let s := reduce_all evs initialState in
  let log := since_reset evs in
  frames s = take 50 (reverse ((added log).*2))
  /\ timelineData s = last_n 60 (point_of <$> added log)
  /\ currentFrame s = last ((added log).*2)
  /\ isMicOn s = Nat.even (toggles log)
  /\ connectionState s = last_connection DISCONNECTED log.
Proof.
  cbv zeta.
  induction evs as [| [now a] evs (IHf & IHt & IHc & IHm & IHs)] using rev_ind;
    [done |].
  rewrite reduce_all_snoc, since_reset_snoc. cbn [fst snd].
  destruct a as [c | f | |]; [| | | done].
  - rewrite added_snoc, toggles_snoc, last_connection_snoc, app_nil_r.
    cbn [fst snd appReducer frames timelineData currentFrame isMicOn
         connectionState]. done.
  - rewrite added_snoc, toggles_snoc, last_connection_snoc. cbn [fst snd].
    repeat split.
    + rewrite frames_add_frame, IHf, fmap_app, reverse_app. cbn.
      apply (take_app_take 50 [f]).
    + rewrite timeline_add_frame, IHt, fmap_app. cbn.
      apply last_n_app_last_n.
    + rewrite fmap_app. change ([(now, f)].*2) with [f]. by rewrite last_snoc.
    + exact IHm.
    + exact IHs.
  - rewrite added_snoc, toggles_snoc, last_connection_snoc, app_nil_r.
    cbn [fst snd appReducer frames timelineData currentFrame isMicOn
         connectionState].
    repeat split; try done.
    rewrite IHm, Nat.even_succ, <- Nat.negb_even. done.
Qed.

(** X1. In every state reached from the initial state by any sequence of
    events (set-connection, add-frame, toggle-mic and reset in any order)
    the history holds at most 50 frames and the timeline at most 60 points,
    the current frame is the head of the history (absent exactly when the
    history is empty), the history is as long as the timeline up to its cap
    of 50, and the deviations and emotions of the history are those of the
    newest timeline points read backwards. *)
Theorem reachable_state_invariant (evs : list Dispatched) :
  let s := reduce_all evs initialState in
  length (frames s) ≤ 50
  /\ length (timelineData s) ≤ 60
  /\ currentFrame s = head (frames s)
  /\ length (frames s) = min 50 (length (timelineData s))
  /\ baseline_deviation <$> frames s
     = take 50 (reverse (intensity <$> timelineData s))
  /\ dominant_emotion <$> frames s
     = take 50 (reverse (emotion <$> timelineData s)).
Proof.
  intros s. destruct (reduce_all_closed_form evs) as (Hf & Ht & Hc & _ & _).
  fold s in Hf, Ht, Hc. set (A := added (since_reset evs)) in *.
  assert (Hlf : length (frames s) = min 50 (length A)).
  { by rewrite Hf, length_take, length_reverse, length_fmap. }
  assert (Hlt : length (timelineData s) = min 60 (length A)).
  { by rewrite Ht, length_last_n, length_fmap. }
  assert (Hrev : forall (B : Type) (g : EmotionDataPoint -> B),
            take 50 (reverse (g <$> timelineData s))
            = take 50 (reverse ((g ∘ point_of) <$> A))).
  { intros B g. rewrite Ht, <- fmap_reverse, reverse_last_n, fmap_take.
    rewrite take_take, fmap_reverse, <- list_fmap_compose. done. }
  repeat split.
  - lia.
  - lia.
  - rewrite Hc, Hf, <- head_reverse. by destruct (reverse (A.*2)).
  - lia.
  - rewrite Hrev, Hf, fmap_take, fmap_reverse, <- list_fmap_compose. done.
  - rewrite Hrev, Hf, fmap_take, fmap_reverse, <- list_fmap_compose. done.
Qed.

(** X2. Whatever else is dispatched in between, the history is the frames
    added since the last reset, newest first, cut to 50, and the timeline
    is the points derived from them, oldest first, cut to the last 60:
    set-connection and toggle-mic never touch either buffer, and a reset
    empties both. *)
Theorem buffers_since_last_reset (evs : list Dispatched) :
  let s := reduce_all evs initialState in
  let fs := added (since_reset evs) in
  frames s = take 50 (reverse (fs.*2))
  /\ timelineData s = last_n 60 (point_of <$> fs)
  /\ currentFrame s = last (fs.*2).
Proof.
  cbv zeta. destruct (reduce_all_closed_form evs) as (Hf & Ht & Hc & _ & _).
  done.
Qed.

(** X3. In every reachable state the connection state is the payload of the
    last set-connection dispatched since the last reset (Disconnected when
    there is none), and the mic is on exactly when an even number of
    toggle-mic events was dispatched since the last reset. *)
Theorem connection_and_mic_since_last_reset (evs : list Dispatched) :
  let s := reduce_all evs initialState in
  connectionState s = last_connection DISCONNECTED (since_reset evs)
  /\ isMicOn s = Nat.even (toggles (since_reset evs)).
Proof.
  cbv zeta. destruct (reduce_all_closed_form evs) as (_ & _ & _ & Hm & Hs).
  done.
Qed.

(** ** Further properties of the decoder and of what is rendered *)

(** X4. Whatever the payload, the decoded frame has a non-empty emotion and
    a non-empty summary, a micro-expression that is absent or non-empty,
    and a confidence and a baseline deviation that are neither NaN nor
    -0: no falsy string or number other than 0 reaches the state. *)
Theorem decoded_frame_never_falsy (iso : string) (data : Args) :
  let frame := decode_frame iso data in
  dominant_emotion frame <> ""%string
  /\ analysis_summary frame <> ""%string
  /\ micro_expression frame <> Some ""%string
  /\ confidence frame <> NaN
  /\ confidence frame <> S754_zero true
  /\ baseline_deviation frame <> NaN
  /\ baseline_deviation frame <> S754_zero true.
Proof.
  destruct data as [e c m a i b t]. cbn.
  repeat split.
  - by destruct e as [[] |].
  - by destruct t as [[] |].
  - by destruct m as [[] |].
  - by destruct c as [[] |].
  - by destruct c as [[] |].
  - by destruct b as [[] |].
  - by destruct b as [[] |].
Qed.


Lemma includes_elem_of (arr : list string) (x : string) :
  includes arr x = true <-> x ∈ arr.
Proof.
  unfold includes. rewrite existsb_exists. split.
  - intros (y & Hin & Heq). apply String.eqb_eq in Heq as ->.
    by apply list_elem_of_In.
  - intros Hin. exists x. split; [by apply list_elem_of_In |].
    apply String.eqb_refl.
Qed.

(** X6. Whatever codes are active, the chart has the same eight bars in
    the same order; a bar has value 100 and the green fill when its code
    is among the active ones, and value 5 and the grey fill otherwise. *)
Theorem action_unit_bars (activeAus : list string) :
  bar_code <$> ActionUnitGraph_data activeAus
  = ["AU1"; "AU2"; "AU4"; "AU6"; "AU9"; "AU12"; "AU15"; "AU20"]%string
  /\ Forall (fun b =>
       ((bar_code b ∈ activeAus) /\ bar_value b = 100%Z
        /\ cell_fill b = "#10b981"%string)
       \/ ((bar_code b ∉ activeAus) /\ bar_value b = 5%Z
           /\ cell_fill b = "#334155"%string))
       (ActionUnitGraph_data activeAus).
Proof.
  split; [reflexivity |].
  unfold ActionUnitGraph_data. apply Forall_fmap, Forall_forall.
  intros au _. unfold cell_fill. cbn.
  destruct (includes activeAus (au_code au)) eqn:E.
  - left. by apply includes_elem_of in E.
  - right. split; [| done]. intros Hin. apply includes_elem_of in Hin.
    congruence.
Qed.

(** X7. The chart depends on nothing but which of its eight codes are
    active: order, repetitions and codes it does not know make no
    difference. *)
Theorem action_unit_graph_membership_only (a1 a2 : list string) :
  (forall c, c ∈ (au_code <$> allAUs) -> (c ∈ a1 <-> c ∈ a2)) ->
  ActionUnitGraph_data a1 = ActionUnitGraph_data a2.
Proof.
  intros Hsame. unfold ActionUnitGraph_data.
  apply list_fmap_ext. intros k au Hau.
  assert (Hc : au_code au ∈ au_code <$> allAUs).
  { apply list_elem_of_fmap. exists au. split; [done |].
    by eapply list_elem_of_lookup_2. }
  specialize (Hsame _ Hc). f_equal.
  destruct (includes a1 (au_code au)) eqn:E1,
           (includes a2 (au_code au)) eqn:E2; try done.
  - apply includes_elem_of, Hsame, includes_elem_of in E1. congruence.
  - apply includes_elem_of, Hsame, includes_elem_of in E2. congruence.
Qed.

(** [action_unit_graph_membership_only] on a list with a repetition and an
    unknown code. *)
Lemma action_unit_graph_membership_only_witness :
  ActionUnitGraph_data ["AU99"; "AU12"; "AU4"; "AU12"]%string
  = ActionUnitGraph_data ["AU4"; "AU12"]%string.
Proof.
  apply action_unit_graph_membership_only.
  intros c Hc. cbn in Hc.
  repeat (apply elem_of_cons in Hc as [-> | Hc]);
    try (by apply elem_of_nil in Hc);
    rewrite !elem_of_cons, !elem_of_nil; split; intros H;
    repeat (destruct H as [H | H]); try discriminate H; try done; auto.
Defined.

Lemma split_no_sep (sep : ascii) (s : string) :
  has_char sep s = false -> split sep s = [s].
Proof.
  induction s as [| c s IH]; [done |]. cbn -[Ascii.eqb]. intros H.
  apply orb_false_elim in H as [Hc Hs]. rewrite Hc, IH; done.
Qed.

Lemma split_cons_other (sep c : ascii) (s : string) :
  Ascii.eqb c sep = false ->
  split sep (String c s) =
  match split sep s with
  | piece :: pieces => String c piece :: pieces
  | [] => [String c EmptyString]
  end.
Proof. intros H. cbn -[Ascii.eqb]. by rewrite H. Qed.

Lemma split_prefix (sep : ascii) (a b : string) :
  has_char sep a = false ->
  split sep (a +:+ String sep b) = a :: split sep b.
Proof.
  induction a as [| c a IH].
  - intros _. change (split sep (String sep b) = "" :: split sep b).
    cbn -[Ascii.eqb]. by rewrite Ascii.eqb_refl.
  - intros H. cbn -[Ascii.eqb] in H.
    apply orb_false_elim in H as [Hc Ha].
    change (String c a +:+ String sep b) with (String c (a +:+ String sep b)).
    by rewrite split_cons_other, IH.
Qed.

Lemma split_head_app (sep : ascii) (a b : string) :
  has_char sep a = false ->
  exists piece pieces,
    split sep b = piece :: pieces
    /\ split sep (a +:+ b) = (a +:+ piece) :: pieces.
Proof.
  intros Ha.
  assert (Hb : exists piece pieces, split sep b = piece :: pieces).
  { destruct b as [| c b]; cbn -[Ascii.eqb]; [by eauto |].
    destruct (Ascii.eqb c sep); [by eauto |].
    destruct (split sep b); eauto. }
  destruct Hb as (piece & pieces & Hb). exists piece, pieces.
  split; [done |]. clear -Ha Hb. revert Ha.
  induction a as [| c a IH]; [done |].
  intros H. cbn -[Ascii.eqb] in H. apply orb_false_elim in H as [Hc Ha].
  change (String c a +:+ b) with (String c (a +:+ b)).
  by rewrite split_cons_other, IH.
Qed.

(** X8. For a frame whose timestamp reads date, ['T'], clock, ['.'],
    anything, where the date holds no ['T'] and the clock neither ['T'] nor
    ['.'] (the shape [toISOString] gives), the log line shows exactly the
    clock. For a timestamp without any ['T'] the expression fails: there is
    no fallback. *)
Theorem log_time_of_timestamp (f : AnalysisFrame) (date clock rest : string) :
  (timestamp f = date +:+ "T" +:+ clock +:+ "." +:+ rest ->
   has_char "T" date = false ->
   has_char "T" clock = false -> has_char "." clock = false ->
   log_time f = Some clock)
  /\ (has_char "T" (timestamp f) = false -> log_time f = None).
Proof.
  split.
  - intros Hts Hd HcT Hcd. unfold log_time. rewrite Hts.
    change (date +:+ "T" +:+ clock +:+ "." +:+ rest)
      with (date +:+ String "T" (clock +:+ String "." rest)).
    rewrite split_prefix by done. cbn [lookup list_lookup].
    destruct (split_head_app "T" clock (String "." rest) HcT)
      as (piece & pieces & Hrest & ->).
    cbn in Hrest.
    destruct (split "T" rest) as [| h t] eqn:E;
      injection Hrest as <- <-; cbn [lookup list_lookup];
      by rewrite split_prefix.
  - intros Hno. unfold log_time. by rewrite split_no_sep.
Qed.

(** [log_time_of_timestamp] on a frame stamped by [toISOString]. *)
Lemma log_time_of_timestamp_witness :
  log_time (decode_frame "2025-01-01T10:20:30.456Z" args_full)
  = Some "10:20:30"%string.
Proof.
  apply (proj1 (log_time_of_timestamp
                  (decode_frame "2025-01-01T10:20:30.456Z" args_full)
                  "2025-01-01" "10:20:30" "456Z")); reflexivity.
Defined.

(** ** Further properties of the session lifecycle *)

Section TeardownFacts.

Context {Blob : Type}.
Implicit Types w : World Blob.

Lemma stopStreaming_world w :
  world_of (stopStreaming w) =
  set_refs (released (refs w))
    (set_timers (timers_cleared (refs w) (timers w)) (next_timer w) w).
Proof. by rewrite stopStreaming_run. Qed.

Lemma stopStreaming_nothing_acquired w :
  nothing_acquired (world_of (stopStreaming w)).
Proof.
  rewrite stopStreaming_world. split; [reflexivity |].
  exact (timers_cleared_idemp (refs w) (timers w)).
Qed.

Lemma stopStreaming_log_by_refs w w' :
  refs w = refs w' -> log_of (stopStreaming w) = log_of (stopStreaming w').
Proof. intros H. rewrite !stopStreaming_run. unfold log_of. cbn. by rewrite H. Qed.

Lemma stopStreaming_stops_tracks w tracks t :
  streamRef (refs w) = Some tracks -> t ∈ tracks ->
  TrackStop t ∈ log_of (stopStreaming w).
Proof.
  intros Hs Ht. rewrite stopStreaming_run. unfold log_of. cbn [snd].
  rewrite Hs, !elem_of_app. do 4 right.
  apply list_elem_of_fmap. by exists t.
Qed.

Lemma stopStreaming_no_session_call w :
  Forall (fun c => is_session_call c = false) (log_of (stopStreaming w)).
Proof.
  rewrite stopStreaming_run. unfold log_of. cbn [snd].
  repeat (apply Forall_app; split).
  - destruct (frameIntervalRef (refs w)) as [i |]; [| constructor].
    destruct (truthy i); by repeat constructor.
  - destruct (processorRef (refs w)); by repeat constructor.
  - destruct (sourceRef (refs w)); by repeat constructor.
  - destruct (audioContextRef (refs w)); by repeat constructor.
  - destruct (streamRef (refs w)) as [tracks |]; [| constructor].
    by apply Forall_fmap, Forall_forall.
Qed.

Lemma onerror_run w :
  onerror w =
  (tt,
   world_of (stopStreaming
               (set_reducerState
                  (appReducer (now_locale w) (reducerState w)
                     (SET_CONNECTION ERROR)) w)),
   [ConsoleError "Session Error"; Dispatch (SET_CONNECTION ERROR)]
   ++ log_of (stopStreaming w)).
Proof.
  unfold onerror. etransitivity.
  { eapply bind_run; [reflexivity |].
    eapply bind_run; [reflexivity | apply stopStreaming_run]. }
  rewrite !stopStreaming_run. reflexivity.
Qed.

Lemma connect_catch_run w :
  connect_catch w =
  (Returned,
   world_of (stopStreaming
               (set_reducerState
                  (appReducer (now_locale w) (reducerState w)
                     (SET_CONNECTION ERROR)) w)),
   [ConsoleError "Connection failed:"; Dispatch (SET_CONNECTION ERROR)]
   ++ log_of (stopStreaming w)).
Proof.
  unfold connect_catch. etransitivity.
  { eapply bind_run; [reflexivity |].
    eapply bind_run; [reflexivity |].
    eapply bind_run; [apply stopStreaming_run | reflexivity]. }
  rewrite !stopStreaming_run. cbn. by rewrite !app_nil_r.
Qed.

Lemma onclose_run w :
  onclose w =
  (tt,
   set_reducerState
     (appReducer (now_locale w) (reducerState w)
        (SET_CONNECTION DISCONNECTED))
     (world_of (stopStreaming w)),
   [ConsoleLog "Session Closed"]
   ++ log_of (stopStreaming w) ++ [Dispatch (SET_CONNECTION DISCONNECTED)]).
Proof.
  unfold onclose. etransitivity.
  { eapply bind_run; [reflexivity |].
    eapply bind_run; [apply stopStreaming_run | reflexivity]. }
  rewrite !stopStreaming_run. reflexivity.
Qed.

End TeardownFacts.

Ltac proj_run :=
  repeat match goal with
    | |- context [world_of (?a, ?b, ?c)] => change (world_of (a, b, c)) with b
    | |- context [log_of (?a, ?b, ?c)] => change (log_of (a, b, c)) with c
    | |- context [value_of (?a, ?b, ?c)] => change (value_of (a, b, c)) with a
    end.

(** X9. Every failure and close path leaves nothing behind. After a
    session error and after a failed connection attempt the state is
    Error, after a session close it is Disconnected; in all three cases
    every resource ref is null, the component's timer no longer runs, and
    every track of the stream that was held has been stopped. *)
Theorem failure_paths_release_everything {Blob} (w : World Blob) :
  (connectionState (reducerState (world_of (onerror w))) = ERROR
   /\ nothing_acquired (world_of (onerror w))
   /\ forall tracks t, streamRef (refs w) = Some tracks -> t ∈ tracks ->
        TrackStop t ∈ log_of (onerror w))
  /\ (connectionState (reducerState (world_of (connect_catch w))) = ERROR
      /\ nothing_acquired (world_of (connect_catch w))
      /\ forall tracks t, streamRef (refs w) = Some tracks -> t ∈ tracks ->
           TrackStop t ∈ log_of (connect_catch w))
  /\ (connectionState (reducerState (world_of (onclose w))) = DISCONNECTED
      /\ nothing_acquired (world_of (onclose w))
      /\ forall tracks t, streamRef (refs w) = Some tracks -> t ∈ tracks ->
           TrackStop t ∈ log_of (onclose w)).
Proof.
  split; [| split].
  - rewrite onerror_run. proj_run.
    split; [by rewrite stopStreaming_world |].
    split; [apply stopStreaming_nothing_acquired |].
    intros tracks t Hs Ht. apply elem_of_app. right.
    by eapply stopStreaming_stops_tracks.
  - rewrite connect_catch_run. proj_run.
    split; [by rewrite stopStreaming_world |].
    split; [apply stopStreaming_nothing_acquired |].
    intros tracks t Hs Ht. apply elem_of_app. right.
    by eapply stopStreaming_stops_tracks.
  - rewrite onclose_run. proj_run.
    split; [done |]. split.
    + destruct (stopStreaming_nothing_acquired w) as [Hr Ht].
      split; [exact Hr | exact Ht].
    + intros tracks t Hs Ht. rewrite !elem_of_app. right. left.
      by eapply stopStreaming_stops_tracks.
Qed.

(** [failure_paths_release_everything] on a session error of a component
    that has just connected. *)
Lemma failure_paths_release_everything_witness :
  TrackStop 2
  ∈ log_of (onerror
              (world_of (connect_and_open (Blob := unit) (fun _ => tt)
                           [1; 2] 7 (fresh_world (Some "key"%string))))).
Proof.
  apply (proj2 (proj2 (proj1 (failure_paths_release_everything
           (world_of (connect_and_open (Blob := unit) (fun _ => tt)
                        [1; 2] 7 (fresh_world (Some "key"%string)))))))
           [1; 2] 2).
  - reflexivity.
  - apply elem_of_cons. right. apply elem_of_cons. by left.
Defined.

(** X10. Teardown never speaks to the remote side and never touches what
    the dashboard shows: [stopStreaming] and [disconnect] make no call on
    the live session (it is neither closed nor told anything; the handle is
    only dropped), and after [disconnect] the history, the timeline, the
    current frame and the mic flag are what they were. *)
Theorem teardown_is_local {Blob} (w : World Blob) :
  Forall (fun c => is_session_call c = false) (log_of (stopStreaming w))
  /\ Forall (fun c => is_session_call c = false) (log_of (disconnect w))
  /\ sessionRef (refs (world_of (disconnect w))) = None
  /\ reducerState (world_of (stopStreaming w)) = reducerState w
  /\ frames (reducerState (world_of (disconnect w))) = frames (reducerState w)
  /\ timelineData (reducerState (world_of (disconnect w)))
     = timelineData (reducerState w)
  /\ currentFrame (reducerState (world_of (disconnect w)))
     = currentFrame (reducerState w)
  /\ isMicOn (reducerState (world_of (disconnect w)))
     = isMicOn (reducerState w).
Proof.
  split; [apply stopStreaming_no_session_call |].
  rewrite disconnect_run, stopStreaming_world. proj_run.
  split; [| done].
  apply Forall_app. split; [apply stopStreaming_no_session_call |].
  by repeat constructor.
Qed.

(** X11. On a component that holds everything, teardown proceeds in
    dependency order: the frame timer is cleared, then the processor node
    is disconnected, then the source node, then the audio context is
    closed, and last the tracks of the stream are stopped in their order. *)
Theorem teardown_order {Blob} (w : World Blob) (i : Z) (tracks : list Track) :
  fully_acquired w i tracks ->
  log_of (stopStreaming w) =
  [ClearInterval i; NodeDisconnect ProcessorNode; NodeDisconnect SourceNode;
   AudioContextClose] ++ (TrackStop <$> tracks).
Proof.
  intros (Hi & Hti & [p Hp] & [so Hso] & [ac Hac] & Hs).
  rewrite stopStreaming_run. unfold log_of. cbn [snd].
  by rewrite Hi, Hti, Hp, Hso, Hac, Hs.
Qed.

(** [teardown_order] on a component that has just connected. *)
Lemma teardown_order_witness :
  log_of (stopStreaming
            (world_of (connect_and_open (Blob := unit) (fun _ => tt)
                         [1; 2] 7 (fresh_world (Some "key"%string)))))
  = [ClearInterval 1; NodeDisconnect ProcessorNode; NodeDisconnect SourceNode;
     AudioContextClose; TrackStop 1; TrackStop 2].
Proof.
  apply (teardown_order _ 1%Z [1; 2]).
  repeat split; by eauto.
Defined.

Lemma truthy_key_inv (k : option string) :
  truthy k = true -> exists c rest, k = Some (String c rest).
Proof. destruct k as [[| c rest] |]; [done | by eauto | done]. Qed.

Lemma timers_fresh_next {Blob} (w : World Blob) :
  timers_fresh w ->
  truthy (next_timer w) = true
  /\ ({[ next_timer w ]} ∪ timers w) ∖ {[ next_timer w ]} = timers w.
Proof.
  intros [Hpos Hlt]. split.
  - unfold truthy, truthy_Z. apply negb_true_iff, Z.eqb_neq. lia.
  - apply set_eq. intros x.
    rewrite elem_of_difference, elem_of_union, !elem_of_singleton.
    split; [tauto |]. intros Hx. specialize (Hlt x Hx). split; [tauto | lia].
Qed.

Ltac run_connect :=
  cbv [connect_and_open connect connect_got_stream connect_open_session
       connect_got_session onopen onopen_then startStreaming
       startStreaming_resumed startStreaming_video
       mbind M_bind mret M_ret get getRef setRef call calls when dispatch
       setInterval set_refs set_reducerState set_timers
       with_streamRef with_sessionRef with_audioContextRef with_sourceRef
       with_processorRef with_frameIntervalRef
       API_KEY now_locale now_iso context_suspended reducerState refs timers
       next_timer videoRef canvasRef streamRef audioContextRef processorRef
       sourceRef frameIntervalRef sessionRef processingRef
       truthy truthy_option truthy_string negb app fst snd
       world_of log_of value_of].

(** X12. A whole session, from [connect] on a component that holds nothing
    to [disconnect] after the session opened, leaves no resource behind:
    the state goes through Connected and ends Disconnected, every resource
    ref is null again, the browser's running timers are those of before,
    every track of the granted stream has been stopped, and the history and
    the mic flag are untouched. *)
Theorem session_round_trip {Blob} (createPcmBlob : list number -> Blob)
    (stream : list Track) (s : Session) (w : World Blob) :
  truthy (API_KEY w) = true ->
  never_acquired (refs w) ->
  timers_fresh w ->
  let w1 := world_of (connect_and_open createPcmBlob stream s w) in
  let w2 := world_of (disconnect w1) in
  connectionState (reducerState w1) = CONNECTED
  /\ streamRef (refs w1) = Some stream
  /\ connectionState (reducerState w2) = DISCONNECTED
  /\ nothing_acquired w2
  /\ timers w2 = timers w
  /\ (forall t, t ∈ stream -> TrackStop t ∈ log_of (disconnect w1))
  /\ frames (reducerState w2) = frames (reducerState w)
  /\ timelineData (reducerState w2) = timelineData (reducerState w)
  /\ isMicOn (reducerState w2) = isMicOn (reducerState w).
Proof.
  intros Hkey Hnone Hfresh. cbv zeta.
  destruct (timers_fresh_next w Hfresh) as [Hnt Hback].
  assert (H1 : connectionState
                 (reducerState
                    (world_of (connect_and_open createPcmBlob stream s w)))
               = CONNECTED
               /\ streamRef
                    (refs (world_of
                             (connect_and_open createPcmBlob stream s w)))
                  = Some stream
               /\ timers_cleared
                    (refs (world_of
                             (connect_and_open createPcmBlob stream s w)))
                    (timers (world_of
                               (connect_and_open createPcmBlob stream s w)))
                  = timers w
               /\ frames (reducerState
                            (world_of
                               (connect_and_open createPcmBlob stream s w)))
                  = frames (reducerState w)
               /\ timelineData
                    (reducerState
                       (world_of
                          (connect_and_open createPcmBlob stream s w)))
                  = timelineData (reducerState w)
               /\ isMicOn
                    (reducerState
                       (world_of
                          (connect_and_open createPcmBlob stream s w)))
                  = isMicOn (reducerState w)).
  { destruct w as [k nl ni cs st [v c sr ac pr so fi se pg] tm nt].
    destruct Hnone as (Hs & Ha & Hp & Hso & Hf & Hse). cbn in *. subst.
    apply truthy_key_inv in Hkey as (ch & rest & ->).
    unfold timers_cleared.
    unfold truthy in Hnt.
    destruct v, cs; run_connect; cbn; rewrite ?Hnt, ?Hback; done. }
  destruct H1 as (Hc & Hs & Ht & Hfr & Htl & Hmic).
  split; [exact Hc |]. split; [exact Hs |].
  rewrite disconnect_run. proj_run.
  split; [done |]. split.
  { split; [reflexivity |].
    exact (timers_cleared_idemp _ _). }
  split; [exact Ht |]. split.
  { intros t Hin. apply elem_of_app. left.
    by eapply stopStreaming_stops_tracks. }
  done.
Qed.

(** [session_round_trip] from a freshly mounted component. *)
Lemma session_round_trip_witness :
  timers (world_of (disconnect
            (world_of (connect_and_open (Blob := unit) (fun _ => tt)
                         [1; 2] 7 (fresh_world (Some "key"%string))))))
  = ∅.
Proof.
  apply (session_round_trip (fun _ => tt) [1; 2] 7
           (fresh_world (Some "key"%string))).
  - reflexivity.
  - by repeat split.
  - split; [reflexivity |]. intros i Hi. by apply elem_of_empty in Hi.
Defined.

(** X13. [connect] does not notice a teardown that happened while it was
    waiting for the camera: when the stream arrives after [stopStreaming]
    (the unmount cleanup) has run, it is stored in [streamRef] all the same
    and the attempt goes on to play the video or open the session; no track
    is stopped and the component again holds a resource. *)
Theorem stream_arriving_after_cleanup {Blob} (stream : list Track)
    (w : World Blob) :
  let w1 := world_of (stopStreaming w) in
  let r := connect_got_stream stream w1 in
  nothing_acquired w1
  /\ streamRef (refs (world_of r)) = Some stream
  /\ log_of r = (if videoRef (refs w) then [VideoPlay stream]
                 else [LiveConnect])
  /\ value_of r = (if videoRef (refs w) then AwaitPlay else AwaitSession)
  /\ reducerState (world_of r) = reducerState w
  /\ ~ nothing_acquired (world_of r).
Proof.
  cbv zeta. split; [apply stopStreaming_nothing_acquired |].
  rewrite stopStreaming_world.
  destruct w as [k nl ni cs st [v c sr ac pr so fi se pg] tm nt].
  destruct v; repeat split; try reflexivity.
  - intros [Hrel _]. discriminate Hrel.
  - intros [Hrel _]. discriminate Hrel.
Qed.

(** X14. With a credential, [connect] starts an attempt whatever the
    connection state is and whatever the component holds: it dispatches
    Connecting and asks for camera and microphone, and it releases
    nothing - the refs and the running timers are as before, and so are
    the history, the timeline, the current frame and the mic flag. *)
Theorem connect_has_no_state_guard {Blob} (w : World Blob) :
  truthy (API_KEY w) = true ->
  let r := connect w in
  value_of r = AwaitUserMedia
  /\ log_of r = [Dispatch (SET_CONNECTION CONNECTING); GetUserMedia]
  /\ connectionState (reducerState (world_of r)) = CONNECTING
  /\ refs (world_of r) = refs w
  /\ timers (world_of r) = timers w
  /\ frames (reducerState (world_of r)) = frames (reducerState w)
  /\ timelineData (reducerState (world_of r)) = timelineData (reducerState w)
  /\ currentFrame (reducerState (world_of r)) = currentFrame (reducerState w)
  /\ isMicOn (reducerState (world_of r)) = isMicOn (reducerState w).
Proof.
  intros Hkey. cbv zeta.
  assert (Hrun : connect w =
    (AwaitUserMedia,
     set_reducerState
       (appReducer (now_locale w) (reducerState w)
          (SET_CONNECTION CONNECTING)) w,
     [Dispatch (SET_CONNECTION CONNECTING); GetUserMedia])).
  { unfold connect. rewrite bind_unfold.
    unfold get, value_of, world_of, log_of. cbn. by rewrite Hkey. }
  by rewrite Hrun.
Qed.

(** [connect_has_no_state_guard] on a component that is already connected
    and streaming. *)
Lemma connect_has_no_state_guard_witness :
  log_of (connect
            (world_of (connect_and_open (Blob := unit) (fun _ => tt)
                         [1; 2] 7 (fresh_world (Some "key"%string)))))
  = [Dispatch (SET_CONNECTION CONNECTING); GetUserMedia].
Proof.
  exact (proj1 (proj2 (connect_has_no_state_guard
           (world_of (connect_and_open (Blob := unit) (fun _ => tt)
                        [1; 2] 7 (fresh_world (Some "key"%string))))
           eq_refl))).
Defined.

Lemma set_processing_same {Blob} (w : World Blob) :
  set_refs (with_processingRef (processingRef (refs w)) (refs w)) w = w.
Proof. by destruct w as [k nl ni cs st [v c sr ac pr so fi se pg] tm nt]. Qed.

(** X15. The guard of the video producer is always released. A tick that
    finds the video not ready (no 2d context, or [readyState] other than 4)
    sends nothing and leaves the flag clear; a tick that sends sets the
    flag, and once its send has settled - fulfilled or rejected - the next
    ready tick sends again: a failed send costs one frame, not the
    producer. *)
Theorem tick_guard_released {Blob} (session : Session) (p p' : VideoProbe)
    (ok : bool) (w : World Blob) :
  videoRef (refs w) = true -> canvasRef (refs w) = true ->
  processingRef (refs w) = false ->
  (has_ctx p && (readyState p =? 4)%Z = false ->
   frame_tick session p w = (Returned, w, []))
  /\ (has_ctx p && (readyState p =? 4)%Z = true ->
      has_ctx p' && (readyState p' =? 4)%Z = true ->
      processingRef (refs (world_of (frame_tick session p w))) = true
      /\ images_sent
           (log_of ((frame_tick session p ;; frame_tick_settled ok ;;
                     frame_tick session p') w))
         = [jpeg_base64 p; jpeg_base64 p']).
Proof.
  intros Hv Hc Hp. split.
  - intros Hnot. rewrite frame_tick_run, Hv, Hc, Hp, Hnot. cbn.
    rewrite <- Hp at 1. by rewrite set_processing_same.
  - intros Hready Hready'.
    assert (H1 : frame_tick session p w =
      (AwaitSend, set_refs (with_processingRef true (refs w)) w,
       [DrawImage 320 240;
        SendRealtimeInput session (InlineMedia "image/jpeg" (jpeg_base64 p))])).
    { by rewrite frame_tick_run, Hv, Hc, Hp, Hready. }
    split; [by rewrite H1 |].
    erewrite bind_run; [| exact H1 |].
    2:{ eapply bind_run; [apply frame_tick_settled_run |].
        rewrite frame_tick_run. cbn [refs set_refs with_processingRef videoRef
          canvasRef processingRef]. rewrite Hv, Hc, Hready'. reflexivity. }
    proj_run. by destruct ok.
Qed.

(** [tick_guard_released] on a freshly mounted component, with a rejected
    send in between. *)
Lemma tick_guard_released_witness :
  images_sent
    (log_of ((frame_tick 7 (mkVideoProbe true 4 "AAAA") ;;
              frame_tick_settled false ;;
              frame_tick 7 (mkVideoProbe true 4 "BBBB"))
               (fresh_world (Blob := unit) (Some "key"%string))))
  = ["AAAA"; "BBBB"]%string.
Proof.
  apply (proj2 (tick_guard_released 7 (mkVideoProbe true 4 "AAAA")
                  (mkVideoProbe true 4 "BBBB") false
                  (fresh_world (Some "key"%string))
                  eq_refl eq_refl eq_refl)); reflexivity.
Defined.

Lemma ticks_while_busy {Blob} (session : Session) (ps : list VideoProbe)
    (w : World Blob) :
  processingRef (refs w) = true ->
  run_video session (Tick <$> ps) w = (tt, w, []).
Proof.
  intros Hbusy. induction ps as [| p ps IH]; [done |].
  cbn [fmap list_fmap run_video].
  etransitivity; [| reflexivity].
  eapply (bind_run _ _ w Returned w [] tt w []); [| exact IH].
  rewrite frame_tick_run, Hbusy. by rewrite andb_false_r.
Qed.

(** X16. Timer ticks alone never put a second image on the wire: under any
    run of ticks with no settled send in between, at most one image is
    transmitted, and none at all when a send is already in flight - the
    component is then left exactly as it was. *)
Theorem at_most_one_send_in_flight {Blob} (session : Session)
    (ps : list VideoProbe) (w : World Blob) :
  length (images_sent (log_of (run_video session (Tick <$> ps) w))) ≤ 1
  /\ (processingRef (refs w) = true ->
      run_video session (Tick <$> ps) w = (tt, w, [])).
Proof.
  split; [| apply ticks_while_busy].
  revert w. induction ps as [| p ps IH]; intros w; [cbn; lia |].
  cbn [fmap list_fmap run_video]. rewrite bind_unfold. proj_run.
  rewrite images_sent_app, length_app. rewrite frame_tick_run.
  destruct (videoRef (refs w) && canvasRef (refs w)
            && negb (processingRef (refs w))).
  - destruct (has_ctx p && (readyState p =? 4)%Z).
    + proj_run. rewrite ticks_while_busy by done. cbn. lia.
    + proj_run. specialize (IH (set_refs (with_processingRef false (refs w)) w)).
      cbn. exact IH.
  - proj_run. specialize (IH w). cbn. exact IH.
Qed.

(** [at_most_one_send_in_flight] on a component with a send in flight. *)
Lemma at_most_one_send_in_flight_witness :
  run_video 7 (Tick <$> [mkVideoProbe true 4 "AAAA"; mkVideoProbe true 4 "BBBB"])
    (busy_world (Blob := unit))
  = (tt, busy_world, []).
Proof.
  exact (proj2 (at_most_one_send_in_flight 7
                  [mkVideoProbe true 4 "AAAA"; mkVideoProbe true 4 "BBBB"]
                  busy_world) eq_refl).
Defined.

Section MessageFacts.

Context {Blob : Type}.
Implicit Types w : World Blob.





End MessageFacts.




(** X19. The button of the control panel follows the lifecycle: after
    [disconnect], after a session close, after a session error and after a
    failed attempt it is an enabled connect button; after the session
    opened it is the disconnect button; while an attempt is under way it is
    a disabled connect button, so an attempt cannot be cancelled from the
    panel; and a [connect] without credential changes nothing on screen. *)
Theorem buttons_follow_lifecycle {Blob} (w : World Blob) :
  control_button (reducerState (world_of (disconnect w))) = ConnectButton false
  /\ control_button (reducerState (world_of (onclose w))) = ConnectButton false
  /\ control_button (reducerState (world_of (onerror w))) = ConnectButton false
  /\ control_button (reducerState (world_of (connect_catch w)))
     = ConnectButton false
  /\ control_button (reducerState (world_of (onopen w))) = DisconnectButton
  /\ (truthy (API_KEY w) = true ->
      control_button (reducerState (world_of (connect w))) = ConnectButton true)
  /\ (truthy (API_KEY w) = false ->
      reducerState (world_of (connect w)) = reducerState w).
Proof.
  split; [by rewrite disconnect_run |].
  split; [by rewrite onclose_run |].
  split; [by rewrite onerror_run, stopStreaming_world |].
  split; [by rewrite connect_catch_run, stopStreaming_world |].
  split; [done |].
  split.
  - intros Hkey. unfold connect. rewrite bind_unfold.
    unfold get, value_of, world_of, log_of. cbn. by rewrite Hkey.
  - intros Hkey. unfold connect. rewrite bind_unfold.
    unfold get, value_of, world_of, log_of. cbn. by rewrite Hkey.
Qed.

(** [buttons_follow_lifecycle] on a freshly mounted component with a
    credential. *)
Lemma buttons_follow_lifecycle_witness :
  control_button
    (reducerState
       (world_of (connect (fresh_world (Blob := unit) (Some "key"%string)))))
  = ConnectButton true.
Proof.
  exact (proj1 (proj2 (proj2 (proj2 (proj2 (proj2
           (buttons_follow_lifecycle
              (fresh_world (Blob := unit) (Some "key"%string)))))))) eq_refl).
Defined.

Lemma forEach_audioprocess {Blob} (node : ScriptProcessorNode Blob)
    (bufs : list (list number)) (w : World Blob) :
  processorRef (refs w) = Some node ->
  forEach audioprocess bufs w = (tt, w, concat (onaudioprocess node <$> bufs)).
Proof.
  intros Hnode. induction bufs as [| b bufs IH]; [done |].
  cbn [forEach fmap list_fmap concat].
  eapply bind_run; [| exact IH].
  unfold audioprocess. rewrite bind_unfold.
  unfold getRef, value_of, world_of, log_of. cbn. by rewrite Hnode.
Qed.

(** X20. Once [startStreaming] has installed the handler, audio buffers
    are answered one by one and in order: when the captured mic flag is on,
    each buffer delivered gives exactly one realtime-input message on the
    session, carrying [createPcmBlob] of that buffer, in the order of
    delivery; when it is off nothing is sent. The component itself is not
    changed by any buffer. *)
Theorem audio_buffers_in_order {Blob} (createPcmBlob : list number -> Blob)
    (state : AppState) (session : Session) (bufs : list (list number))
    (w : World Blob) :
  streamRef (refs w) <> None -> context_suspended w = false ->
  let w1 := world_of (startStreaming createPcmBlob state session w) in
  forEach audioprocess bufs w1 =
  (tt, w1,
   if isMicOn state
   then (fun b => SendRealtimeInput session (PcmMedia (createPcmBlob b)))
          <$> bufs
   else []).
Proof.
  intros Hs Hc. cbv zeta.
  rewrite (forEach_audioprocess
             {| onaudioprocess := audio_handler createPcmBlob state session |}).
  - f_equal. unfold audio_handler.
    destruct (isMicOn state); cbn.
    + induction bufs as [| b bufs IH]; [done |]. cbn. by rewrite IH.
    + induction bufs as [| b bufs IH]; [done |]. cbn. by rewrite IH.
  - destruct w as [k nl ni cs st [v c sr ac pr so fi se pg] tm nt].
    cbn in Hs, Hc. subst cs. destruct sr as [tracks |]; [| done].
    reflexivity.
Qed.

(** [audio_buffers_in_order] after the stream was granted on a fresh
    component. *)
Lemma audio_buffers_in_order_witness :
  log_of (forEach audioprocess [[zero]; [of_pos 3]]
            (world_of (startStreaming (Blob := list number) (fun b => b)
                         initialState 7
                         (world_of (connect_got_stream [1; 2]
                                      (fresh_world (Some "key"%string)))))))
  = [SendRealtimeInput 7 (PcmMedia [zero]);
     SendRealtimeInput 7 (PcmMedia [of_pos 3])].
Proof.
  rewrite (audio_buffers_in_order (fun b => b) initialState 7
             [[zero]; [of_pos 3]]
             (world_of (connect_got_stream [1; 2]
                          (fresh_world (Some "key"%string)))));
    [reflexivity | discriminate | reflexivity].
Defined.

(** X21. On a suspended audio context [startStreaming] starts neither
    producer: it creates the context, asks it to resume and waits, with no
    handler installed and no timer started, while the kickoff message of
    [onopen] is sent right away. Only the continuation after the resume
    wires the source and the processor and starts the 500 ms frame timer
    under a fresh id, which is then running and recorded in
    [frameIntervalRef]. *)
Theorem suspended_context_delays_producers {Blob}
    (createPcmBlob : list number -> Blob) (state : AppState) (s : Session)
    (w : World Blob) :
  streamRef (refs w) <> None -> context_suspended w = true ->
  let r1 := startStreaming createPcmBlob state s w in
  let r2 := startStreaming_resumed createPcmBlob state s (world_of r1) in
  (value_of r1 = AwaitResume
   /\ log_of r1 = [NewAudioContext 16000; AudioContextResume]
   /\ processorRef (refs (world_of r1)) = processorRef (refs w)
   /\ frameIntervalRef (refs (world_of r1)) = frameIntervalRef (refs w)
   /\ timers (world_of r1) = timers w)
  /\ log_of (onopen_then createPcmBlob state s w)
     = [NewAudioContext 16000; AudioContextResume;
        Send s "Begin continuous visual analysis."]
  /\ (value_of r2 = Returned
      /\ log_of r2 = [NodeConnect SourceNode; NodeConnect ProcessorNode;
                      SetInterval (next_timer w) 500]
      /\ frameIntervalRef (refs (world_of r2)) = Some (next_timer w)
      /\ next_timer w ∈ timers (world_of r2)
      /\ forall inputData,
           log_of (audioprocess inputData (world_of r2))
           = audio_handler createPcmBlob state s inputData).
Proof.
  intros Hs Hc. cbv zeta.
  destruct w as [k nl ni cs st [v c sr ac pr so fi se pg] tm nt].
  cbn in Hs, Hc. subst cs. destruct sr as [tracks |]; [| done].
  split; [by repeat split |]. split; [reflexivity |].
  split; [reflexivity |]. split; [reflexivity |]. split; [reflexivity |].
  split; [| intros inputData; reflexivity].
  change (nt ∈ ({[ nt ]} ∪ tm : gset Z)).
  apply elem_of_union. left. by apply elem_of_singleton.
Qed.

(** [suspended_context_delays_producers] after the stream was granted on a
    component whose audio context starts suspended. *)
Lemma suspended_context_delays_producers_witness :
  value_of
    (startStreaming (Blob := unit) (fun _ => tt) initialState 7
       granted_suspended_world)
  = AwaitResume.
Proof.
  apply (suspended_context_delays_producers (fun _ => tt) initialState 7
           granted_suspended_world); [discriminate | reflexivity].
Defined.
